(** * Facely: the staged pipeline and its progress protocol

    A shallow embedding of [src/handleGetImages.mjs] (the image materializer
    [getViewableImages]) and of the package entry point (the module constants
    [targetSceneWidth], [config], [overlayTypes], the helper [reportProgress]
    and the orchestrator [facely]).

    Conventions.
    - A JavaScript Number is an IEEE 754 binary64 value: [number] is the
      kernel's primitive [float], whose operations round to nearest, ties to
      even, as the language's do.  A stage index or a stage count is an
      integer ([Z]); the model is exact for the safe integers
      (magnitude up to 2^53), on which [===], [*] and [+] are those of the
      integers and the template literal prints the decimal numeral.
    - An [async] function is modelled by a state-and-exception monad [M]: a
      rejected promise is the completion [Throw], [await] is sequencing.  A
      run is followed on its own; interleavings with other tasks at the
      [await] points are not modelled.
    - Everything the module imports or finds in the browser (DOM, network,
      the model adapters, the mesh builder) is a field of the class [Host];
      such a call may change the [World] and may throw. *)

From Stdlib Require Import ZArith QArith Lia Ascii PrimFloat FloatOps FloatAxioms.
From stdpp Require Import gmap strings list fin_maps pretty sorting.

Local Open Scope Z_scope.

(** ** Numbers *)

Definition number : Type := float.

(** The Number an integer literal or an integer result denotes. *)
Definition of_Z (z : Z) : number :=
  SF2Prim (SpecFloat.binary_normalize prec emax z 0 false).

Definition two52 : number := 4503599627370496%float.

(** For [0 <= y < 2^52]: [y] rounded to an integer, a tie going to the even
    one (the sum has no fraction bits left). *)
Definition nearest_even (y : number) : number := (y + two52 - two52)%float.

(** [Math.round]: a value that is not finite or is integral is returned as
    it is; otherwise the nearest integer, a tie going towards +Infinity, with
    the sign of the argument when the result is zero. *)
Definition Math_round (x : number) : number :=
  (if is_nan x then x
   else if two52 <=? abs x then x
   else if x =? 0 then x
   else
     let y := abs x in
     let t := nearest_even y in
     let floor_x :=
       if 0 <? x then (if y <? t then t - 1 else t)
       else - (if t <? y then t + 1 else t) in
     let r := if x - floor_x <? 0.5 then floor_x else floor_x + 1 in
     if r =? 0 then (if x <? 0 then -0 else 0) else r)%float.

(** ** Values *)

Inductive JsVal : Type :=
| Undefined
| Null
| Bool (b : bool)
| Num (n : number)
| Str (s : string)
| Obj (ref : positive).

(** ToBoolean *)
Definition truthy (v : JsVal) : bool :=
  match v with
  | Undefined | Null => false
  | Bool b => b
  | Num n => negb (n =? 0)%float && negb (is_nan n)
  | Str s => negb (String.eqb s "")
  | Obj _ => true
  end.

(** What a [throw] carries, and so what a rejected promise holds: a value
    raised by a collaborator, or the TypeError of the language itself. *)
Inductive Thrown : Type :=
| Raised (v : JsVal)
| TypeError (message : string).

(** ** Progress reports *)

Record ProgressReport : Type := mkReport {
  message : string;
  percent : number;
  stage : string;
}.


(** The template literal [`${stage}/${total}`] on integers.  The decimal
    numeral is what the language prints for a safe integer; a larger Number
    is printed with the shortest digits that read back to it, and from
    [1e21] on in exponent notation, which this definition does not follow:
    statements about the label are made for safe integers. *)
Definition stage_label (stage total : Z) : string :=
  pretty stage +:+ "/" +:+ pretty total.

(** [reportProgress] on integer arguments, which is what [facely] passes.
    The arithmetic is the language's, on binary64 values: [stage * 2] and
    [total * 2] are exact, and the sum is rounded once, as [of_Z] does. *)
Definition reportProgress (stage total : Z) (message : string) (complete : bool)
  : ProgressReport :=
  let percentage :=
    Math_round
      (of_Z (stage * 2 + (if complete then 1 else 0)) / of_Z (total * 2) * 100)%float
  in
  let isComplete := stage =? total in
  {| message := message;
     percent := if isComplete then (if complete then 100 else 99)%float
                else percentage;
     stage := stage_label stage total |}.


(** ** Module constants *)

Record Config : Type := mkConfig {
  pointSize : number;
  pointColor : string;
  outerRingColor : string;
  outerRingWidth : number;
  triangulationColor : string;
  triangulationWidth : number;
  invertDepth : bool;
  scaleFactor : number;
  baseElevation : number;
  minDepth : number;
  maxDepth : number;
  outputDepthRange : list number;
  invertDepthMap : bool;
  depthMapFormat : string;
}.

Definition targetSceneWidth : number := 10%float.

(** The object the module creates when it is loaded.  It is one object for
    the life of the module: every run of [facely] starts from the
    configuration the run before it left. *)
Definition config0 : Config :=
  {| pointSize := 3%float;
     pointColor := "purple";
     outerRingColor := "orange";
     outerRingWidth := 3%float;
     triangulationColor := "cyan";
     triangulationWidth := 2%float;
     invertDepth := true;
     scaleFactor := 1%float;
     baseElevation := 5%float;
     minDepth := 0%float;
     maxDepth := 1%float;
     outputDepthRange := [0%float; 1%float];
     invertDepthMap := false;
     depthMapFormat := "image/png" |}.

(** [config.scaleFactor = v] *)
Definition with_scaleFactor (v : number) (c : Config) : Config :=
  {| pointSize := pointSize c;
     pointColor := pointColor c;
     outerRingColor := outerRingColor c;
     outerRingWidth := outerRingWidth c;
     triangulationColor := triangulationColor c;
     triangulationWidth := triangulationWidth c;
     invertDepth := invertDepth c;
     scaleFactor := v;
     baseElevation := baseElevation c;
     minDepth := minDepth c;
     maxDepth := maxDepth c;
     outputDepthRange := outputDepthRange c;
     invertDepthMap := invertDepthMap c;
     depthMapFormat := depthMapFormat c |}.

Definition overlayTypes : list string :=
  ["combinedImage"; "keypointsImage"; "triangulationImage"; "outerRingImage"].

(** ** Completions, the host, and the trace of a run *)

Inductive Completion (A : Type) : Type :=
| Normal (a : A)
| Throw (e : Thrown).
Arguments Normal {A} a.
Arguments Throw {A} e.

(** A call into the host: it reads and changes the world, and returns or
    throws. *)
Definition Ext (W A : Type) : Type := W -> Completion A * W.

(** The properties an ordinary object inherits from [Object.prototype]:
    eleven functions and the accessor [__proto__], whose getter yields the
    prototype.  Each is an object of the host, told from the others by its
    reference. *)
Definition Object_prototype : list (string * positive) :=
  [ ("constructor", 1001%positive);
    ("hasOwnProperty", 1002%positive);
    ("isPrototypeOf", 1003%positive);
    ("propertyIsEnumerable", 1004%positive);
    ("toLocaleString", 1005%positive);
    ("toString", 1006%positive);
    ("valueOf", 1007%positive);
    ("__defineGetter__", 1008%positive);
    ("__defineSetter__", 1009%positive);
    ("__lookupGetter__", 1010%positive);
    ("__lookupSetter__", 1011%positive);
    ("__proto__", 1000%positive) ].

Definition inherited (k : string) : option JsVal :=
  Obj <$> (list_to_map Object_prototype : gmap string positive) !! k.

(** Property access [o[k]] on an ordinary object with the own properties
    [o]: an own property is read; a name the object does not hold is looked
    up in [Object.prototype]; what is found nowhere reads [undefined]. *)
Definition get_prop (o : gmap string JsVal) (k : string) : JsVal :=
  match o !! k with
  | Some v => v
  | None => default Undefined (inherited k)
  end.

(** The collaborators of the module.  None of them is under [src/]: each is
    taken as it comes, a function of its arguments and of the world.  A
    collaborator is handed the configuration as a value, so it is taken not
    to write to the module's [config] object; what [createThreeDScene] reads
    from [window] is part of the world.  [toDataURL] is the method of that
    name of its first argument, [import_handlePredictions] the dynamic
    [import()] that yields the prediction adapter. *)
Class Host : Type := {
  World : Type;
  Canvas : Type;
  Scene : Type;
  Image : Type;
  Mesh : Type;
  Response : Type;
  Blob : Type;
  img_width : Image -> number;
  (* the browser *)
  document_createElement : string -> Ext World Canvas;
  URL_createObjectURL : JsVal -> Ext World string;
  fetch : JsVal -> Ext World Response;
  Response_blob : Response -> Ext World Blob;
  FileReader_readAsDataURL : Blob -> Ext World JsVal;
  toDataURL : JsVal -> string -> Ext World string;
  (* ThreeDScene.mjs, ImageHandler.mjs *)
  createThreeDScene : Canvas -> Ext World Scene;
  loadImage : string -> Ext World Image;
  addImageToScene : Scene -> JsVal -> Ext World JsVal;
  (* handlePredictions.mjs, loaded on demand *)
  import_handlePredictions :
    Ext World (string -> Config -> Ext World (gmap string JsVal));
  (* handleDepthEstimation.mjs *)
  handleDepthEstimation : JsVal -> Config -> Ext World JsVal;
  (* handle3DObjects.mjs *)
  generateUVTexturedFace :
    Scene -> gmap string JsVal -> Image -> Config -> Ext World Mesh;
  getVerticesMesh : gmap string JsVal -> Config -> Ext World Mesh;
  getEdgesMesh : gmap string JsVal -> Config -> Ext World Mesh;
  getFacesMesh : gmap string JsVal -> Config -> Ext World Mesh;
  add3DObjectsToScene : Scene -> gmap string JsVal -> Config -> Ext World JsVal;
  addVerticesMeshToScene : Scene -> gmap string JsVal -> Config -> Ext World JsVal;
  addEdgesMeshToScene : Scene -> gmap string JsVal -> Config -> Ext World JsVal;
  addFacesMeshToScene : Scene -> gmap string JsVal -> Config -> Ext World JsVal;
  (* handleDownloads.mjs *)
  processDownloadAssets :
    JsVal -> string -> JsVal -> gmap string JsVal -> Mesh -> list string
    -> Ext World JsVal;
}.

(** The calls a run makes into the host, with the arguments that are plain
    data. *)
Inductive Call : Type :=
| C_progress (r : ProgressReport)
| C_createElement (tag : string)
| C_createThreeDScene
| C_createObjectURL (file : JsVal)
| C_loadImage (url : string)
| C_import (specifier : string)
| C_handlePredictions (url : string) (cfg : Config)
| C_generateUVTexturedFace (cfg : Config)
| C_handleDepthEstimation (file : JsVal) (cfg : Config)
| C_fetch (resource : JsVal)
| C_blob
| C_readAsDataURL
| C_toDataURL (surface : JsVal) (type : string)
| C_getVerticesMesh (cfg : Config)
| C_getEdgesMesh (cfg : Config)
| C_getFacesMesh (cfg : Config)
| C_addToScene (what : string)
| C_processDownloadAssets.

(** What [console.log] was given. *)
Inductive Logged : Type :=
| L_imageUrl (url : string)
| L_img
| L_visualizations (v : gmap string JsVal)
| L_uvFaceMesh
| L_depthEstimationResult (v : JsVal).

Inductive Event : Type :=
| EvCall (c : Call)
| EvThrew (c : Call) (e : Thrown)
| EvConsoleLog (l : Logged)
| EvConfigWrite (scaleFactor : number).

(** The progress reports handed to the callback, in order. *)
Definition reports (l : list Event) : list ProgressReport :=
  omap (fun ev => match ev with EvCall (C_progress r) => Some r | _ => None end) l.

(** The assignments to [config], in order. *)
Definition config_writes (l : list Event) : list number :=
  omap (fun ev => match ev with EvConfigWrite v => Some v | _ => None end) l.

(** The resources passed to [fetch], in order. *)
Definition fetched (l : list Event) : list JsVal :=
  omap (fun ev => match ev with EvCall (C_fetch v) => Some v | _ => None end) l.

(** The calls of the mesh builder, the depth adapter and the materializer. *)
Definition later_stage_call (c : Call) : bool :=
  match c with
  | C_generateUVTexturedFace _ | C_handleDepthEstimation _ _
  | C_fetch _ | C_blob | C_readAsDataURL | C_toDataURL _ _
  | C_getVerticesMesh _ | C_getEdgesMesh _ | C_getFacesMesh _ => true
  | _ => false
  end.

Record ViewableImages : Type := mkImages {
  baseImage : JsVal;
  displacementMap : JsVal;
  overlays : gmap string JsVal;
}.

Section Pipeline.
Context {H : Host}.

Record State : Type := mkState {
  world : World;
  config : Config;
  log : list Event;
}.

Definition M (A : Type) : Type := State -> Completion A * State.

Definition ret {A} (a : A) : M A := fun s => (Normal a, s).

Definition bind {A B} (m : M A) (k : A -> M B) : M B := fun s =>
  match m s with
  | (Normal a, s') => k a s'
  | (Throw e, s') => (Throw e, s')
  end.

Definition throw {A} (e : Thrown) : M A := fun s => (Throw e, s).

Definition emit (ev : Event) : M unit := fun s =>
  (Normal tt, mkState (world s) (config s) (log s ++ [ev])).

(** A call into the host, recorded in the trace with its failure if any. *)
Definition ext {A} (c : Call) (f : Ext World A) : M A := fun s =>
  match f (world s) with
  | (Normal a, w) => (Normal a, mkState w (config s) (log s ++ [EvCall c]))
  | (Throw e, w) =>
      (Throw e, mkState w (config s) (log s ++ [EvCall c; EvThrew c e]))
  end.

Definition get_config : M Config := fun s => (Normal (config s), s).

Definition set_scaleFactor (v : number) : M unit := fun s =>
  (Normal tt,
   mkState (world s) (with_scaleFactor v (config s)) (log s ++ [EvConfigWrite v])).

Definition console_log (l : Logged) : M unit := emit (EvConsoleLog l).

(** A run from the world [w] and the module's configuration [c]. *)
Definition run {A} (m : M A) (w : World) (c : Config) : Completion A * State :=
  m (mkState w c []).
End Pipeline.

Declare Scope js_scope.
Delimit Scope js_scope with js.
Notation "x <- m ;; k" := (bind m (fun x => k))
  (at level 20, m at level 99, k at level 200, only parsing) : js_scope.
Notation "' pat <- m ;; k" := (bind m (fun x => match x with pat => k end))
  (at level 20, pat pattern, m at level 99, k at level 200, only parsing)
  : js_scope.
Notation "m ;; k" := (bind m (fun _ => k))
  (at level 100, k at level 200, only parsing, right associativity) : js_scope.

Local Open Scope js_scope.

(** ** The image materializer: [getViewableImages] *)

Section Materializer.
Context {H : Host}.

Definition fetchToDataURL (resource : JsVal) : M JsVal :=
  res <- ext (C_fetch resource) (fetch resource);;
  blob <- ext C_blob (Response_blob res);;
  ext C_readAsDataURL (FileReader_readAsDataURL blob).

Definition with_baseImage (v : JsVal) (r : ViewableImages) : ViewableImages :=
  mkImages v (displacementMap r) (overlays r).
Definition with_displacementMap (v : JsVal) (r : ViewableImages) : ViewableImages :=
  mkImages (baseImage r) v (overlays r).
(** [result.overlays[k] = v], with [overlays] the own properties of
    [result.overlays].  An assignment to [__proto__] goes to the setter
    inherited from [Object.prototype] and creates no property; every other
    name becomes (or stays) an own property. *)
Definition with_overlay (k : string) (v : JsVal) (r : ViewableImages)
  : ViewableImages :=
  if String.eqb k "__proto__" then r
  else mkImages (baseImage r) (displacementMap r) (<[k := v]> (overlays r)).

(** 1. Base image *)
Definition base_image_step (imageFile imageUrl : JsVal) (result : ViewableImages)
  : M ViewableImages :=
  if truthy imageFile && truthy imageUrl then
    d <- fetchToDataURL imageUrl;;
    ret (with_baseImage d result)
  else ret result.

(** 2. Displacement / depth map image *)
Definition depth_map_step (depthMapImage : JsVal) (result : ViewableImages)
  : M ViewableImages :=
  if truthy depthMapImage then
    depthMapBlobUrl <-
      ext (C_toDataURL depthMapImage "image/png")
          (toDataURL depthMapImage "image/png");;
    ret (with_displacementMap (Str depthMapBlobUrl) result)
  else ret result.

(** 3. Overlays: the [for ... of] loop over [overlayTypes] *)
Fixpoint overlays_step (visualizations : gmap string JsVal)
    (overlayTypes : list string) (result : ViewableImages) : M ViewableImages :=
  match overlayTypes with
  | [] => ret result
  | overlay :: rest =>
      if truthy (get_prop visualizations overlay) then
        d <- fetchToDataURL (get_prop visualizations overlay);;
        overlays_step visualizations rest (with_overlay overlay d result)
      else overlays_step visualizations rest result
  end.

(** [getViewableImages] on arguments of the types its JSDoc gives, which is
    how [facely] calls it: the bundle is an object, given by its own data
    properties (it inherits those of [Object.prototype]), and the names are
    an array of strings. *)
Definition getViewableImages (imageFile imageUrl depthMapImage : JsVal)
    (visualizations : gmap string JsVal) (overlayTypes : list string)
  : M ViewableImages :=
  let result := mkImages Null Null ∅ in
  result <- base_image_step imageFile imageUrl result;;
  result <- depth_map_step depthMapImage result;;
  overlays_step visualizations overlayTypes result.

(** The loop on arguments as the language lets them be passed: no bundle
    ([undefined] or [null], here [None]) or names that cannot be iterated
    (here [None]).  The loop header throws a TypeError when the names cannot
    be iterated, and the read [visualizations[overlay]] throws one at the
    first name when there is no bundle; neither calls the host.  The text of
    the message is the engine's. *)
Definition overlays_loop (visualizations : option (gmap string JsVal))
    (overlayTypes : option (list string)) (result : ViewableImages)
  : M ViewableImages :=
  match overlayTypes with
  | None => throw (TypeError "overlayTypes is not iterable")
  | Some names =>
      match visualizations with
      | Some bundle => overlays_step bundle names result
      | None =>
          match names with
          | [] => ret result
          | _ :: _ => throw (TypeError "Cannot read properties of undefined")
          end
      end
  end.

Definition getViewableImages_unchecked (imageFile imageUrl depthMapImage : JsVal)
    (visualizations : option (gmap string JsVal))
    (overlayTypes : option (list string))
  : M ViewableImages :=
  let result := mkImages Null Null ∅ in
  result <- base_image_step imageFile imageUrl result;;
  result <- depth_map_step depthMapImage result;;
  overlays_loop visualizations overlayTypes result.
End Materializer.

(** ** The orchestrator: [facely] *)

Section Orchestrator.
Context {H : Host}.

(** The progress callback as the caller passed it: [None] when the
    argument was left out. *)
Definition Callback : Type := ProgressReport -> Ext World unit.

(** [progress(r)] *)
Definition call_progress (progress : option Callback) (r : ProgressReport)
  : M unit :=
  match progress with
  | Some f => ext (C_progress r) (f r)
  | None => throw (TypeError "progress is not a function")
  end.

(** The object [facely] resolves to.  The [add] helpers and [download] are
    closures over the run's values; none of them runs inside [facely]. *)
Record Face : Type := mkFace {
  canvas : Canvas;
  scene : Scene;
  texturedMesh : Mesh;
  image : ViewableImages;
  verticesMesh : Mesh;
  edgesMesh : Mesh;
  facesMesh : Mesh;
  add_image : option Scene -> M JsVal;
  add_wireframe : option Scene -> M JsVal;
  add_vertices : option Scene -> M JsVal;
  add_edges : option Scene -> M JsVal;
  add_faces : option Scene -> M JsVal;
  add_uvFace : option Scene -> M Mesh;
  download : M JsVal;
}.

Definition stages : Z := 6.

Definition facely (imageFile : JsVal) (progress : option Callback) : M Face :=
  (* 0. setup *)
  call_progress progress (reportProgress 0 stages "setting up..." false);;
  newCanvas <- ext (C_createElement "canvas") (document_createElement "canvas");;
  newScene <- ext C_createThreeDScene (createThreeDScene newCanvas);;
  call_progress progress (reportProgress 0 stages "setting up complete!" true);;
  (* 1. upload *)
  call_progress progress (reportProgress 1 stages "uploading..." false);;
  imageUrl <- ext (C_createObjectURL imageFile) (URL_createObjectURL imageFile);;
  console_log (L_imageUrl imageUrl);;
  call_progress progress (reportProgress 1 stages "uploading complete!" true);;
  (* 2. preview *)
  call_progress progress (reportProgress 2 stages "generating preview..." false);;
  img <- ext (C_loadImage imageUrl) (loadImage imageUrl);;
  scaleFactor <- ret (targetSceneWidth / img_width img)%float;;
  set_scaleFactor scaleFactor;;
  console_log L_img;;
  call_progress progress (reportProgress 2 stages "preview generated!" true);;
  (* 3. prediction *)
  call_progress progress (reportProgress 3 stages "making predictions..." false);;
  handlePredictions <-
    ext (C_import "./src/handlePredictions.mjs") import_handlePredictions;;
  cfg <- get_config;;
  visualizations <-
    ext (C_handlePredictions imageUrl cfg) (handlePredictions imageUrl cfg);;
  console_log (L_visualizations visualizations);;
  call_progress progress (reportProgress 3 stages "predictions complete!" true);;
  (* 4. 3d *)
  call_progress progress (reportProgress 4 stages "generating 3D objects..." false);;
  cfg <- get_config;;
  uvFaceMesh <-
    ext (C_generateUVTexturedFace cfg)
        (generateUVTexturedFace newScene visualizations img cfg);;
  console_log L_uvFaceMesh;;
  call_progress progress (reportProgress 4 stages "3D objects generated!" true);;
  (* 5. depth *)
  call_progress progress
    (reportProgress 5 stages "starting depth estimation..." false);;
  cfg <- get_config;;
  depthEstimationResult <-
    ext (C_handleDepthEstimation imageFile cfg)
        (handleDepthEstimation imageFile cfg);;
  console_log (L_depthEstimationResult depthEstimationResult);;
  call_progress progress (reportProgress 5 stages "depth estimation complete!" true);;
  call_progress progress (reportProgress 6 stages "reviewing process..." false);;
  call_progress progress (reportProgress 6 stages "process complete!" true);;
  (* get images *)
  imagesObject <-
    getViewableImages imageFile (Str imageUrl) depthEstimationResult
      visualizations overlayTypes;;
  cfg <- get_config;;
  vertices <- ext (C_getVerticesMesh cfg) (getVerticesMesh visualizations cfg);;
  edges <- ext (C_getEdgesMesh cfg) (getEdgesMesh visualizations cfg);;
  faces <- ext (C_getFacesMesh cfg) (getFacesMesh visualizations cfg);;
  ret {| canvas := newCanvas;
         scene := newScene;
         texturedMesh := uvFaceMesh;
         image := imagesObject;
         verticesMesh := vertices;
         edgesMesh := edges;
         facesMesh := faces;
         add_image := fun scene =>
           ext (C_addToScene "image")
               (addImageToScene (default newScene scene) imageFile);
         add_wireframe := fun scene =>
           cfg <- get_config;;
           ext (C_addToScene "wireframe")
               (add3DObjectsToScene (default newScene scene) visualizations cfg);
         add_vertices := fun scene =>
           cfg <- get_config;;
           ext (C_addToScene "vertices")
               (addVerticesMeshToScene (default newScene scene) visualizations cfg);
         add_edges := fun scene =>
           cfg <- get_config;;
           ext (C_addToScene "edges")
               (addEdgesMeshToScene (default newScene scene) visualizations cfg);
         add_faces := fun scene =>
           cfg <- get_config;;
           ext (C_addToScene "faces")
               (addFacesMeshToScene (default newScene scene) visualizations cfg);
         add_uvFace := fun scene =>
           cfg <- get_config;;
           ext (C_generateUVTexturedFace cfg)
               (generateUVTexturedFace (default newScene scene) visualizations
                  img cfg);
         download :=
           ext C_processDownloadAssets
               (processDownloadAssets imageFile imageUrl depthEstimationResult
                  visualizations uvFaceMesh overlayTypes) |}.
End Orchestrator.

(** ** Vocabulary of the statements *)

(** [p] is the integer nearest to [x], a tie going to the larger one. *)
Definition nearest_integer (x : Q) (p : Z) : Prop :=
  (inject_Z p - (1 # 2) <= x /\ x < inject_Z p + (1 # 2))%Q.

(** The completion flag as the number the formula adds. *)
Definition flag (c : bool) : Z := if c then 1 else 0.








(** The fourteen reports [facely] builds, in the order of its source. *)
Definition pipeline_reports : list ProgressReport :=
  [ reportProgress 0 stages "setting up..." false;
    reportProgress 0 stages "setting up complete!" true;
    reportProgress 1 stages "uploading..." false;
    reportProgress 1 stages "uploading complete!" true;
    reportProgress 2 stages "generating preview..." false;
    reportProgress 2 stages "preview generated!" true;
    reportProgress 3 stages "making predictions..." false;
    reportProgress 3 stages "predictions complete!" true;
    reportProgress 4 stages "generating 3D objects..." false;
    reportProgress 4 stages "3D objects generated!" true;
    reportProgress 5 stages "starting depth estimation..." false;
    reportProgress 5 stages "depth estimation complete!" true;
    reportProgress 6 stages "reviewing process..." false;
    reportProgress 6 stages "process complete!" true ].

(** The calls of the materializer, and the events they leave. *)
Definition materializer_call (c : Call) : bool :=
  match c with
  | C_fetch _ | C_blob | C_readAsDataURL | C_toDataURL _ _ => true
  | _ => false
  end.

Definition materializer_event (ev : Event) : bool :=
  match ev with
  | EvCall c | EvThrew c _ => materializer_call c
  | _ => false
  end.

(** The bundle holds an entry for [k]: [visualizations[k]] is truthy. *)
Definition present (visualizations : gmap string JsVal) (k : string) : bool :=
  truthy (get_prop visualizations k).

(** The state [s'] is [s] after some calls: the configuration is the same
    and the trace has grown by [evs]. *)
Definition extends {H : Host} (s s' : State) (evs : list Event) : Prop :=
  config s' = config s /\ log s' = log s ++ evs.



(** The six enumerated stages, each with the message of its "started" and of
    its "complete" report, and the reports of the trailing review phase. *)
Definition enumerated_stages : list (Z * string * string) :=
  [ (0, "setting up...", "setting up complete!");
    (1, "uploading...", "uploading complete!");
    (2, "generating preview...", "preview generated!");
    (3, "making predictions...", "predictions complete!");
    (4, "generating 3D objects...", "3D objects generated!");
    (5, "starting depth estimation...", "depth estimation complete!") ].

Definition stage_reports (st : Z * string * string) : list ProgressReport :=
  let '(i, started, complete) := st in
  [reportProgress i stages started false; reportProgress i stages complete true].

Definition review_reports : list ProgressReport :=
  [ reportProgress stages stages "reviewing process..." false;
    reportProgress stages stages "process complete!" true ].

(** *** What the callback has seen

    [seen] reads off the world the reports a callback has taken note of.  A
    call is [quiet] when it leaves them alone, a computation [keeps] them
    when its calls do, a callback [records] when each invocation that
    returns has added its report at the end, and the host [host_keeps] them
    when none of the collaborators [facely] calls touches them. *)
Definition quiet {H : Host} (seen : World -> list ProgressReport) {A}
    (e : Ext World A) : Prop :=
  forall w o w', e w = (o, w') -> seen w' = seen w.

Definition keeps {H : Host} (seen : World -> list ProgressReport) {A}
    (m : M A) : Prop :=
  forall s o s', m s = (o, s') -> seen (world s') = seen (world s).

Definition records {H : Host} (seen : World -> list ProgressReport)
    (f : Callback) : Prop :=
  forall r w w', f r w = (Normal tt, w') -> seen w' = seen w ++ [r].

Definition host_keeps {H : Host} (seen : World -> list ProgressReport) : Prop :=
  (forall tag, quiet seen (document_createElement tag))
  /\ (forall cv, quiet seen (createThreeDScene cv))
  /\ (forall file, quiet seen (URL_createObjectURL file))
  /\ (forall url, quiet seen (loadImage url))
  /\ quiet seen import_handlePredictions
  /\ (forall handlePredictions w w',
        import_handlePredictions w = (Normal handlePredictions, w') ->
        forall url cfg, quiet seen (handlePredictions url cfg))
  /\ (forall sc v img cfg, quiet seen (generateUVTexturedFace sc v img cfg))
  /\ (forall file cfg, quiet seen (handleDepthEstimation file cfg))
  /\ (forall v, quiet seen (fetch v))
  /\ (forall res, quiet seen (Response_blob res))
  /\ (forall blob, quiet seen (FileReader_readAsDataURL blob))
  /\ (forall v type, quiet seen (toDataURL v type))
  /\ (forall v cfg, quiet seen (getVerticesMesh v cfg))
  /\ (forall v cfg, quiet seen (getEdgesMesh v cfg))
  /\ (forall v cfg, quiet seen (getFacesMesh v cfg)).

(** *** A host to run the model on

    Every call succeeds and counts itself in the world; the image has the
    given width and the prediction adapter completes as given.  A resource
    that is a string is read as the data URL ["data:" ++ s]; reading anything
    else fails. *)

Definition tick {A} (r : Completion A) : Ext nat A := fun w => (r, S w).

Definition demo_data_url (v : JsVal) : Completion JsVal :=
  match v with
  | Str s => Normal (Str ("data:" +:+ s))
  | _ => Throw (TypeError "Failed to fetch")
  end.

Definition demoHost (width : number) (prediction : Completion (gmap string JsVal))
  : Host :=
  {| World := nat;
     Canvas := unit;
     Scene := unit;
     Image := number;
     Mesh := string;
     Response := JsVal;
     Blob := JsVal;
     img_width := fun i => i;
     document_createElement := fun _ => tick (Normal tt);
     URL_createObjectURL := fun _ => tick (Normal "blob:portrait");
     fetch := fun v => tick (Normal v);
     Response_blob := fun v => tick (Normal v);
     FileReader_readAsDataURL := fun v => tick (demo_data_url v);
     toDataURL := fun _ _ => tick (Normal "data:image/png;base64,depth");
     createThreeDScene := fun _ => tick (Normal tt);
     loadImage := fun _ => tick (Normal width);
     addImageToScene := fun _ _ => tick (Normal Undefined);
     import_handlePredictions := tick (Normal (fun _ _ => tick prediction));
     handleDepthEstimation := fun _ _ => tick (Normal (Obj 7));
     generateUVTexturedFace := fun _ _ _ _ => tick (Normal "uv");
     getVerticesMesh := fun _ _ => tick (Normal "vertices");
     getEdgesMesh := fun _ _ => tick (Normal "edges");
     getFacesMesh := fun _ _ => tick (Normal "faces");
     add3DObjectsToScene := fun _ _ _ => tick (Normal Undefined);
     addVerticesMeshToScene := fun _ _ _ => tick (Normal Undefined);
     addEdgesMeshToScene := fun _ _ _ => tick (Normal Undefined);
     addFacesMeshToScene := fun _ _ _ => tick (Normal Undefined);
     processDownloadAssets := fun _ _ _ _ _ _ => tick (Normal Undefined) |}.

(** A callback that only takes note of the report. *)
Definition demo_callback (h : Host) (note : Ext (@World h) unit)
  : option (@Callback h) :=
  Some (fun _ => note).

(** A bundle with two overlays, one empty entry, and two names missing. *)
Definition demo_bundle : gmap string JsVal :=
  <["combinedImage" := Str "blob:combined"]>
    (<["keypointsImage" := Str "blob:keypoints"]>
       (<["outerRingImage" := Str ""]> ∅)).

Definition demo_failure : Thrown := Raised (Str "model failed").

Definition goodHost : Host := demoHost 512%float (Normal demo_bundle).
Definition badHost : Host := demoHost 512%float (Throw demo_failure).



(** A host whose world is the list of the reports noted so far: no
    collaborator touches it, and the callback [note] adds its report. *)
Definition still {A} (r : Completion A) : Ext (list ProgressReport) A :=
  fun w => (r, w).

Definition noteHost : Host :=
  {| World := list ProgressReport;
     Canvas := unit;
     Scene := unit;
     Image := number;
     Mesh := string;
     Response := JsVal;
     Blob := JsVal;
     img_width := fun i => i;
     document_createElement := fun _ => still (Normal tt);
     URL_createObjectURL := fun _ => still (Normal "blob:portrait");
     fetch := fun v => still (Normal v);
     Response_blob := fun v => still (Normal v);
     FileReader_readAsDataURL := fun v => still (demo_data_url v);
     toDataURL := fun _ _ => still (Normal "data:image/png;base64,depth");
     createThreeDScene := fun _ => still (Normal tt);
     loadImage := fun _ => still (Normal 512%float);
     addImageToScene := fun _ _ => still (Normal Undefined);
     import_handlePredictions :=
       still (Normal (fun _ _ => still (Normal demo_bundle)));
     handleDepthEstimation := fun _ _ => still (Normal (Obj 7));
     generateUVTexturedFace := fun _ _ _ _ => still (Normal "uv");
     getVerticesMesh := fun _ _ => still (Normal "vertices");
     getEdgesMesh := fun _ _ => still (Normal "edges");
     getFacesMesh := fun _ _ => still (Normal "faces");
     add3DObjectsToScene := fun _ _ _ => still (Normal Undefined);
     addVerticesMeshToScene := fun _ _ _ => still (Normal Undefined);
     addEdgesMeshToScene := fun _ _ _ => still (Normal Undefined);
     addFacesMeshToScene := fun _ _ _ => still (Normal Undefined);
     processDownloadAssets := fun _ _ _ _ _ _ => still (Normal Undefined) |}.

Definition note : @Callback noteHost := fun r w => (Normal tt, w ++ [r]).

(** *** Vocabulary of the further properties *)

(** The failures recorded in a trace, in order. *)
Definition failures (l : list Event) : list (Call * Thrown) :=
  omap (fun ev => match ev with EvThrew c e => Some (c, e) | _ => None end) l.

(** The calls recorded in a trace, in order, and those of them made outside
    the materializer. *)
Definition calls (l : list Event) : list Call :=
  omap (fun ev => match ev with EvCall c => Some c | _ => None end) l.

Definition pipeline_calls (l : list Event) : list Call :=
  List.filter (fun c => negb (materializer_call c)) (calls l).

(** How an outcome shows in the events [evs] of the computation that had it:
    a normal completion has recorded no failure; an abrupt one has recorded
    one failure, as its last event, and carries the value that was thrown. *)
Definition fails_fast {A} (o : Completion A) (evs : list Event) : Prop :=
  match o with
  | Normal _ => failures evs = []
  | Throw e => exists c, failures evs = [(c, e)] /\ last evs = Some (EvThrew c e)
  end.

(** A computation that leaves the configuration alone, calls nothing but the
    materializer's four host functions, and fails fast. *)
Definition materializes {H : Host} {A} (m : M A) : Prop :=
  forall s, exists evs,
    extends s (m s).2 evs
    /\ forallb materializer_event evs = true
    /\ fails_fast (m s).1 evs.

(** The arguments on which the loop of [getViewableImages] can run: names
    that can be iterated and, when there is a name, a bundle to read. *)
Definition loop_runs (visualizations : option (gmap string JsVal))
    (overlayTypes : option (list string)) : Prop :=
  match overlayTypes with
  | None => False
  | Some [] => True
  | Some (_ :: _) => is_Some visualizations
  end.

(** The calls made once the last progress report is out: the materializer's
    and the three mesh getters'. *)
Definition after_last_report (c : Call) : bool :=
  match c with
  | C_fetch _ | C_blob | C_readAsDataURL | C_toDataURL _ _
  | C_getVerticesMesh _ | C_getEdgesMesh _ | C_getFacesMesh _ => true
  | _ => false
  end.

(** The calls of a resolved run outside the materializer, for the object URL
    [url] and the configuration [cfg]. *)
Definition resolved_calls (imageFile : JsVal) (url : string) (cfg : Config)
  : list Call :=
  [ C_progress (reportProgress 0 stages "setting up..." false);
    C_createElement "canvas";
    C_createThreeDScene;
    C_progress (reportProgress 0 stages "setting up complete!" true);
    C_progress (reportProgress 1 stages "uploading..." false);
    C_createObjectURL imageFile;
    C_progress (reportProgress 1 stages "uploading complete!" true);
    C_progress (reportProgress 2 stages "generating preview..." false);
    C_loadImage url;
    C_progress (reportProgress 2 stages "preview generated!" true);
    C_progress (reportProgress 3 stages "making predictions..." false);
    C_import "./src/handlePredictions.mjs";
    C_handlePredictions url cfg;
    C_progress (reportProgress 3 stages "predictions complete!" true);
    C_progress (reportProgress 4 stages "generating 3D objects..." false);
    C_generateUVTexturedFace cfg;
    C_progress (reportProgress 4 stages "3D objects generated!" true);
    C_progress (reportProgress 5 stages "starting depth estimation..." false);
    C_handleDepthEstimation imageFile cfg;
    C_progress (reportProgress 5 stages "depth estimation complete!" true);
    C_progress (reportProgress 6 stages "reviewing process..." false);
    C_progress (reportProgress 6 stages "process complete!" true);
    C_getVerticesMesh cfg;
    C_getEdgesMesh cfg;
    C_getFacesMesh cfg ].

(** A host on which the prediction adapter returns an overlay that cannot be
    read: the materializer fails on it. *)
Definition lateHost : Host :=
  demoHost 512%float (Normal (<["combinedImage" := Obj 3]> ∅)).

(** * Properties *)

(** Membership in a list that has been computed: case by case. *)
Ltac in_log H :=
  repeat first
    [ apply elem_of_nil in H; contradiction
    | apply elem_of_cons in H as [H|H]; [try discriminate H|]
    | apply elem_of_app in H as [H|H] ].

(** ** [Math.round] and [reportProgress] on values *)

Example Math_round_tie_up : Math_round 2.5%float = 3%float.
Proof. reflexivity. Qed.

Example Math_round_negative_tie_up : Math_round (-2.5)%float = (-2)%float.
Proof. reflexivity. Qed.

Example Math_round_minus_half : Math_round (-0.5)%float = (-0)%float.
Proof. reflexivity. Qed.

Example Math_round_quarter : Math_round 0.25%float = 0%float.
Proof. reflexivity. Qed.

Example Math_round_integral : Math_round 4503599627370497%float = 4503599627370497%float.
Proof. reflexivity. Qed.

Example reportProgress_3_6 :
  reportProgress 3 6 "predictions complete!" true
  = mkReport "predictions complete!" 58%float "3/6".
Proof. reflexivity. Qed.

(** The quotient is a binary64 value: 29/200 times 100 is the double just
    below 14.5, and the percent is 14. *)
Example reportProgress_14_100 :
  percent (reportProgress 14 100 "working" true) = 14%float.
Proof. reflexivity. Qed.

(** ** [reportProgress] *)

(** With the six stages of the pipeline the percent is the integer nearest
    to the exact quotient. *)
Lemma pipeline_percent_nearest (s : Z) (msg : string) (c : bool) :
  0 <= s < stages ->
  exists p : Z,
    percent (reportProgress s stages msg c) = of_Z p
    /\ nearest_integer
         (inject_Z (s * 2 + flag c) / inject_Z (stages * 2) * inject_Z 100)%Q p.
Proof.
  unfold stages. intros Hs.
  assert (s = 0 \/ s = 1 \/ s = 2 \/ s = 3 \/ s = 4 \/ s = 5)
    as [->|[->|[->|[->|[->| ->]]]]] by lia;
    destruct c.
  all: match goal with
       | |- exists p, percent ?r = _ /\ _ =>
           let v := eval vm_compute in (percent r) in
           let z := eval vm_compute in
             (match Prim2SF v with
              | SpecFloat.S754_finite false m e => Z.shiftl (Z.pos m) e
              | _ => 0
              end) in
           exists z
       end.
  all: split; [vm_compute; reflexivity|].
  all: unfold nearest_integer, Qle, Qlt; simpl; lia.
Qed.








(** *** The stage label *)










(** ** The monad *)

Section MonadFacts.
Context {H : Host}.

Lemma bind_Normal_inv {A B} (m : M A) (k : A -> M B) s b s' :
  bind m k s = (Normal b, s') ->
  exists a s1, m s = (Normal a, s1) /\ k a s1 = (Normal b, s').
Proof.
  unfold bind. destruct (m s) as [[a|e] s1]; [eauto|discriminate].
Qed.

Lemma ext_Normal_inv {A} c (f : Ext World A) s a s' :
  ext c f s = (Normal a, s') ->
  exists w, f (world s) = (Normal a, w)
            /\ s' = mkState w (config s) (log s ++ [EvCall c]).
Proof.
  unfold ext. destruct (f (world s)) as [[a'|e] w]; [|discriminate].
  intros [= -> <-]. eauto.
Qed.

Lemma ext_Throw_inv {A} c (f : Ext World A) s e s' :
  ext c f s = (Throw e, s') ->
  exists w, f (world s) = (Throw e, w)
            /\ s' = mkState w (config s) (log s ++ [EvCall c; EvThrew c e]).
Proof.
  unfold ext. destruct (f (world s)) as [[a'|e'] w]; [discriminate|].
  intros [= -> <-]. eauto.
Qed.

Lemma extends_refl s : extends s s [].
Proof. unfold extends. by rewrite app_nil_r. Qed.

Lemma extends_trans s1 s2 s3 e1 e2 :
  extends s1 s2 e1 -> extends s2 s3 e2 -> extends s1 s3 (e1 ++ e2).
Proof.
  intros [C1 L1] [C2 L2]. split; [congruence|].
  rewrite L2, L1, app_assoc. reflexivity.
Qed.
End MonadFacts.

Lemma fetched_app (l1 l2 : list Event) :
  fetched (l1 ++ l2) = fetched l1 ++ fetched l2.
Proof. apply omap_app. Qed.

Lemma reports_app (l1 l2 : list Event) :
  reports (l1 ++ l2) = reports l1 ++ reports l2.
Proof. apply omap_app. Qed.


(** The materializer's events are none of the callback's and none of the
    configuration's. *)
Lemma materializer_events_quiet (evs : list Event) :
  forallb materializer_event evs = true ->
  reports evs = [] /\ config_writes evs = []
  /\ forall ev, ev ∈ evs -> materializer_event ev = true.
Proof.
  induction evs as [|ev evs IH]; simpl.
  - intros _. repeat split. intros ev Hev. by apply elem_of_nil in Hev.
  - intros [Hev Hevs]%andb_prop. destruct (IH Hevs) as (Hr & Hw & Hin).
    repeat split.
    + destruct ev as [[]| | |]; try discriminate; exact Hr.
    + destruct ev as [[]| | |]; try discriminate; exact Hw.
    + intros ev' [->|Hin']%elem_of_cons; auto.
Qed.

(** ** [getViewableImages] *)

Section MaterializerFacts.
Context {H : Host}.

Lemma fetchToDataURL_extends resource s :
  exists evs,
    extends s (fetchToDataURL resource s).2 (EvCall (C_fetch resource) :: evs)
    /\ forallb materializer_event evs = true /\ fetched evs = [].
Proof.
  unfold fetchToDataURL, bind, ext, extends.
  destruct (fetch resource (world s)) as [[res|e] w]; simpl.
  2: { eexists; repeat split; reflexivity. }
  destruct (Response_blob res w) as [[blob|e] w1]; simpl.
  2: { eexists; repeat split; rewrite <- ?app_assoc; reflexivity. }
  destruct (FileReader_readAsDataURL blob w1) as [[d|e] w2]; simpl;
    eexists; repeat split; rewrite <- ?app_assoc; reflexivity.
Qed.

Lemma base_image_step_spec imageFile imageUrl r s :
  if truthy imageFile && truthy imageUrl then
    base_image_step imageFile imageUrl r s
    = match fetchToDataURL imageUrl s with
      | (Normal d, s1) => (Normal (with_baseImage d r), s1)
      | (Throw e, s1) => (Throw e, s1)
      end
  else base_image_step imageFile imageUrl r s = (Normal r, s).
Proof.
  unfold base_image_step.
  destruct (truthy imageFile && truthy imageUrl); reflexivity.
Qed.

Lemma base_image_step_extends imageFile imageUrl r s :
  exists evs,
    extends s (base_image_step imageFile imageUrl r s).2 evs
    /\ forallb materializer_event evs = true
    /\ fetched evs
       = (if truthy imageFile && truthy imageUrl then [imageUrl] else []).
Proof.
  pose proof (base_image_step_spec imageFile imageUrl r s) as Hs.
  destruct (truthy imageFile && truthy imageUrl).
  - destruct (fetchToDataURL_extends imageUrl s) as (evs & Hx & Hm & Hf).
    rewrite Hs. exists (EvCall (C_fetch imageUrl) :: evs).
    destruct (fetchToDataURL imageUrl s) as [[d|e] s1]; simpl in *;
      (split; [exact Hx|]); (split; [exact Hm|]);
      unfold fetched in *; simpl; by rewrite Hf.
  - rewrite Hs. exists []. split; [apply extends_refl|]. done.
Qed.

Lemma depth_map_step_spec depthMapImage r s :
  if truthy depthMapImage then
    depth_map_step depthMapImage r s
    = match toDataURL depthMapImage "image/png" (world s) with
      | (Normal url, w) =>
          (Normal (with_displacementMap (Str url) r),
           mkState w (config s)
             (log s ++ [EvCall (C_toDataURL depthMapImage "image/png")]))
      | (Throw e, w) =>
          (Throw e,
           mkState w (config s)
             (log s ++ [EvCall (C_toDataURL depthMapImage "image/png");
                        EvThrew (C_toDataURL depthMapImage "image/png") e]))
      end
  else depth_map_step depthMapImage r s = (Normal r, s).
Proof.
  unfold depth_map_step, bind, ext, ret.
  destruct (truthy depthMapImage); [|reflexivity].
  destruct (toDataURL depthMapImage "image/png" (world s)) as [[url|e] w];
    reflexivity.
Qed.

(** The depth-map step calls [toDataURL] and nothing else: it fetches
    nothing. *)
Lemma depth_map_step_extends depthMapImage r s :
  exists evs,
    extends s (depth_map_step depthMapImage r s).2 evs
    /\ forallb materializer_event evs = true
    /\ fetched evs = [].
Proof.
  pose proof (depth_map_step_spec depthMapImage r s) as Hs.
  destruct (truthy depthMapImage).
  - rewrite Hs.
    destruct (toDataURL depthMapImage "image/png" (world s)) as [[url|e] w];
      eexists; (split; [split; reflexivity|]); done.
  - rewrite Hs. exists []. split; [apply extends_refl|]. done.
Qed.

Lemma with_overlay_keeps (k : string) (v : JsVal) (r : ViewableImages) :
  baseImage (with_overlay k v r) = baseImage r
  /\ displacementMap (with_overlay k v r) = displacementMap r.
Proof. unfold with_overlay. by destruct (String.eqb k "__proto__"). Qed.

Lemma with_overlay_lookup (k j : string) (v d : JsVal) (r : ViewableImages) :
  overlays (with_overlay k v r) !! j = Some d <->
  (j = k /\ k <> "__proto__" /\ d = v) \/ (j <> k /\ overlays r !! j = Some d)
  \/ (j = k /\ k = "__proto__" /\ overlays r !! j = Some d).
Proof.
  unfold with_overlay. destruct (String.eqb_spec k "__proto__") as [Hk|Hk].
  - destruct (decide (j = k)); naive_solver.
  - cbn [overlays]. destruct (decide (k = j)) as [->|Hne].
    + rewrite lookup_insert_eq. naive_solver.
    + rewrite lookup_insert_ne by exact Hne. naive_solver.
Qed.

Lemma with_overlay_is_Some (k j : string) (v : JsVal) (r : ViewableImages) :
  is_Some (overlays (with_overlay k v r) !! j) <->
  is_Some (overlays r !! j) \/ (j = k /\ k <> "__proto__").
Proof.
  unfold is_Some. split.
  - intros [d Hd]. apply with_overlay_lookup in Hd. naive_solver.
  - intros [[d Hd]|[-> Hk]].
    + destruct (decide (j = k)) as [->|Hne].
      * destruct (decide (k = "__proto__")) as [Hp|Hp].
        -- exists d. apply with_overlay_lookup. naive_solver.
        -- exists v. apply with_overlay_lookup. naive_solver.
      * exists d. apply with_overlay_lookup. naive_solver.
    + exists v. apply with_overlay_lookup. naive_solver.
Qed.

Lemma overlays_step_spec visualizations names r s :
  exists evs,
    extends s (overlays_step visualizations names r s).2 evs
    /\ forallb materializer_event evs = true
    /\ match (overlays_step visualizations names r s).1 with
       | Normal r' =>
           fetched evs
           = get_prop visualizations <$> List.filter (present visualizations) names
           /\ baseImage r' = baseImage r
           /\ displacementMap r' = displacementMap r
           /\ forall k : string,
               is_Some (overlays r' !! k) <->
               is_Some (overlays r !! k)
               \/ (k ∈ names /\ present visualizations k = true
                   /\ k <> "__proto__")
       | Throw _ => True
       end.
Proof.
  revert r s. induction names as [|overlay rest IH]; intros r s; simpl.
  - exists []. split; [apply extends_refl|]. repeat split; auto.
    intros [?|[Hk _]]; [done|]. by apply elem_of_nil in Hk.
  - change (truthy (get_prop visualizations overlay))
      with (present visualizations overlay).
    destruct (present visualizations overlay) eqn:Hp.
    + unfold bind.
      destruct (fetchToDataURL_extends (get_prop visualizations overlay) s)
        as (e1 & Hx1 & Hm1 & Hf1).
      destruct (fetchToDataURL (get_prop visualizations overlay) s) as [[d|e] s1];
        cbn [fst snd] in *.
      * destruct (IH (with_overlay overlay d r) s1) as (e2 & Hx2 & Hm2 & Hr).
        eexists. split; [eapply extends_trans; eassumption|].
        split; [simpl; rewrite forallb_app, Hm1, Hm2; reflexivity|].
        destruct (overlays_step visualizations rest (with_overlay overlay d r) s1).1
          as [r'|e]; [|exact I].
        destruct Hr as (Hf & Hb & Hd & Hdom).
        destruct (with_overlay_keeps overlay d r) as [Hkb Hkd].
        split; [|split; [congruence|split; [congruence|]]].
        -- change (EvCall (C_fetch (get_prop visualizations overlay)) :: e1)
             with ([EvCall (C_fetch (get_prop visualizations overlay))] ++ e1).
           rewrite !fetched_app, Hf1, Hf. reflexivity.
        -- intros k. rewrite Hdom, with_overlay_is_Some, elem_of_cons.
           naive_solver.
      * eexists. split; [exact Hx1|]. split; [exact Hm1|exact I].
    + destruct (IH r s) as (e2 & Hx2 & Hm2 & Hr).
      exists e2. split; [exact Hx2|]. split; [exact Hm2|].
      destruct (overlays_step visualizations rest r s).1 as [r'|e]; [|exact I].
      destruct Hr as (Hf & Hb & Hd & Hdom).
      split; [exact Hf|split; [exact Hb|split; [exact Hd|]]].
      intros k. rewrite Hdom, elem_of_cons. split; [naive_solver|].
      intros [Hk|[[->|Hk] [Hpk Hne]]]; [by left|congruence|by right].
Qed.


(** A resolved call went through its three steps. *)
Lemma getViewableImages_inv imageFile imageUrl depthMapImage visualizations
    names s r s' :
  getViewableImages imageFile imageUrl depthMapImage visualizations names s
  = (Normal r, s') ->
  exists r1 s1 r2 s2,
    base_image_step imageFile imageUrl (mkImages Null Null ∅) s = (Normal r1, s1)
    /\ depth_map_step depthMapImage r1 s1 = (Normal r2, s2)
    /\ overlays_step visualizations names r2 s2 = (Normal r, s').
Proof.
  unfold getViewableImages. intros Hrun.
  apply bind_Normal_inv in Hrun as (r1 & s1 & H1 & Hrun).
  apply bind_Normal_inv in Hrun as (r2 & s2 & H2 & Hrun).
  eauto 10.
Qed.

(** Whatever its outcome, the materializer leaves the configuration alone
    and adds only events of its own to the trace. *)
Lemma getViewableImages_extends imageFile imageUrl depthMapImage visualizations
    names s :
  exists evs,
    extends s
      (getViewableImages imageFile imageUrl depthMapImage visualizations names s).2
      evs
    /\ forallb materializer_event evs = true.
Proof.
  unfold getViewableImages, bind.
  destruct (base_image_step_extends imageFile imageUrl (mkImages Null Null ∅) s)
    as (e1 & Hx1 & Hm1 & _).
  destruct (base_image_step imageFile imageUrl (mkImages Null Null ∅) s)
    as [[r1|e] s1]; cbn [fst snd] in *; [|eauto].
  destruct (depth_map_step_extends depthMapImage r1 s1) as (e2 & Hx2 & Hm2 & _).
  destruct (depth_map_step depthMapImage r1 s1) as [[r2|e] s2]; cbn [fst snd] in *.
  - destruct (overlays_step_spec visualizations names r2 s2) as (e3 & Hx3 & Hm3 & _).
    exists (e1 ++ e2 ++ e3). split.
    + eapply extends_trans; [exact Hx1|]. eapply extends_trans; eassumption.
    + rewrite !forallb_app, Hm1, Hm2, Hm3. reflexivity.
  - exists (e1 ++ e2). split; [eapply extends_trans; eassumption|].
    rewrite forallb_app, Hm1, Hm2. reflexivity.
Qed.

(** The resources a resolved call has fetched: the image URL when the base
    image is wanted, then the bundle's entries for the requested names it
    holds.  The depth-map surface is not among them. *)
Lemma getViewableImages_fetched imageFile imageUrl depthMapImage visualizations
    names s r s' :
  getViewableImages imageFile imageUrl depthMapImage visualizations names s
  = (Normal r, s') ->
  fetched (log s')
  = fetched (log s)
    ++ (if truthy imageFile && truthy imageUrl then [imageUrl] else [])
    ++ (get_prop visualizations <$> List.filter (present visualizations) names).
Proof.
  intros (r1 & s1 & r2 & s2 & H1 & H2 & H3)%getViewableImages_inv.
  destruct (base_image_step_extends imageFile imageUrl (mkImages Null Null ∅) s)
    as (e1 & [_ Hl1] & _ & Hf1). rewrite H1 in Hl1. cbn [snd] in Hl1.
  destruct (depth_map_step_extends depthMapImage r1 s1)
    as (e2 & [_ Hl2] & _ & Hf2). rewrite H2 in Hl2. cbn [snd] in Hl2.
  destruct (overlays_step_spec visualizations names r2 s2)
    as (e3 & [_ Hl3] & _ & Hr). rewrite H3 in Hl3, Hr. cbn [fst snd] in Hl3, Hr.
  destruct Hr as (Hf3 & _).
  rewrite Hl3, Hl2, Hl1, !fetched_app, Hf1, Hf2, Hf3, app_nil_r, <- app_assoc.
  reflexivity.
Qed.
End MaterializerFacts.

Section MaterializerClaims.
Context {H : Host}.

Lemma present_iff (visualizations : gmap string JsVal) (k : string) :
  inherited k = None ->
  present visualizations k = true
  <-> exists v, visualizations !! k = Some v /\ truthy v = true.
Proof.
  intros Hk. unfold present, get_prop. rewrite Hk.
  destruct (visualizations !! k) as [v|]; simpl.
  - split; [eauto|]. by intros (v' & [= ->] & Hv).
  - split; [discriminate|]. by intros (v' & [=] & _).
Qed.

Lemma inherited_proto (k : string) : inherited k = None -> k <> "__proto__".
Proof. intros Hk ->. vm_compute in Hk. discriminate Hk. Qed.

(** None of the four configured overlay names is a property of
    [Object.prototype]. *)
Lemma overlayTypes_own (k : string) : k ∈ overlayTypes -> inherited k = None.
Proof. unfold overlayTypes. intros Hk. in_log Hk; subst; reflexivity. Qed.

Lemma base_image_step_keeps imageFile imageUrl r s r1 s1 :
  base_image_step imageFile imageUrl r s = (Normal r1, s1) ->
  displacementMap r1 = displacementMap r /\ overlays r1 = overlays r.
Proof.
  pose proof (base_image_step_spec imageFile imageUrl r s) as Hs.
  destruct (truthy imageFile && truthy imageUrl); rewrite Hs.
  - destruct (fetchToDataURL imageUrl s) as [[d|e] s2]; [|discriminate].
    by intros [= <- _].
  - by intros [= <- _].
Qed.

Lemma depth_map_step_keeps depthMapImage r s r1 s1 :
  depth_map_step depthMapImage r s = (Normal r1, s1) ->
  baseImage r1 = baseImage r /\ overlays r1 = overlays r.
Proof.
  pose proof (depth_map_step_spec depthMapImage r s) as Hs.
  destruct (truthy depthMapImage); rewrite Hs.
  - destruct (toDataURL depthMapImage "image/png" (world s)) as [[url|e] w];
      [|discriminate].
    by intros [= <- _].
  - by intros [= <- _].
Qed.


(** C9. Without an image file or without an image URL the base-image step
    fetches nothing, raises nothing and leaves [baseImage] null; with both,
    the [baseImage] of the result is the data URL read from the fetch of
    the image URL. *)
Theorem baseImage_needs_file_and_url imageFile imageUrl depthMapImage
    (visualizations : gmap string JsVal) (names : list string) s :
  (truthy imageFile = false \/ truthy imageUrl = false ->
   base_image_step imageFile imageUrl (mkImages Null Null ∅) s
   = (Normal (mkImages Null Null ∅), s)
   /\ forall r s',
       getViewableImages imageFile imageUrl depthMapImage visualizations names s
       = (Normal r, s') ->
       baseImage r = Null)
  /\ (truthy imageFile = true /\ truthy imageUrl = true ->
      forall r s',
        getViewableImages imageFile imageUrl depthMapImage visualizations names s
        = (Normal r, s') ->
        exists data s1,
          fetchToDataURL imageUrl s = (Normal data, s1) /\ baseImage r = data).
Proof.
  pose proof (base_image_step_spec imageFile imageUrl (mkImages Null Null ∅) s)
    as Hs.
  split.
  - intros Hmiss.
    replace (truthy imageFile && truthy imageUrl) with false in Hs
      by (destruct Hmiss as [-> | ->]; [reflexivity|by rewrite andb_false_r]).
    split; [exact Hs|].
    intros r s' (r1 & s1 & r2 & s2 & H1 & H2 & H3)%getViewableImages_inv.
    rewrite Hs in H1. injection H1 as <- <-.
    apply depth_map_step_keeps in H2 as [Hb2 _].
    destruct (overlays_step_spec visualizations names r2 s2) as (evs & _ & _ & Hr).
    rewrite H3 in Hr. cbn [fst] in Hr. destruct Hr as (_ & Hb3 & _).
    by rewrite Hb3, Hb2.
  - intros [Hf Hu]. rewrite Hf, Hu in Hs. cbn [andb] in Hs.
    intros r s' (r1 & s1 & r2 & s2 & H1 & H2 & H3)%getViewableImages_inv.
    rewrite Hs in H1.
    destruct (fetchToDataURL imageUrl s) as [[data|e] s0]; [|discriminate].
    injection H1 as <- <-. exists data, s0. split; [reflexivity|].
    apply depth_map_step_keeps in H2 as [Hb2 _].
    destruct (overlays_step_spec visualizations names r2 s2) as (evs & _ & _ & Hr).
    rewrite H3 in Hr. cbn [fst] in Hr. destruct Hr as (_ & Hb3 & _).
    by rewrite Hb3, Hb2.
Qed.

(** C10. Without a depth-map surface [displacementMap] is null.  With one
    it is the string the surface's own [toDataURL("image/png")] returned;
    nothing is fetched for it: the resources fetched are the image URL and
    the overlays, whatever the surface. *)
Theorem displacementMap_from_surface imageFile imageUrl depthMapImage
    (visualizations : gmap string JsVal) (names : list string) s r s' :
  getViewableImages imageFile imageUrl depthMapImage visualizations names s
  = (Normal r, s') ->
  (truthy depthMapImage = false -> displacementMap r = Null)
  /\ (truthy depthMapImage = true ->
      exists url r1 s1 w,
        base_image_step imageFile imageUrl (mkImages Null Null ∅) s
        = (Normal r1, s1)
        /\ toDataURL depthMapImage "image/png" (world s1) = (Normal url, w)
        /\ displacementMap r = Str url)
  /\ fetched (log s')
     = fetched (log s)
       ++ (if truthy imageFile && truthy imageUrl then [imageUrl] else [])
       ++ (get_prop visualizations <$> List.filter (present visualizations) names).
Proof.
  intros Hrun. split; [|split]; [| |eapply getViewableImages_fetched; eassumption].
  - intros Hd.
    apply getViewableImages_inv in Hrun as (r1 & s1 & r2 & s2 & H1 & H2 & H3).
    apply base_image_step_keeps in H1 as [Hd1 _].
    pose proof (depth_map_step_spec depthMapImage r1 s1) as Hs.
    rewrite Hd in Hs. rewrite Hs in H2. injection H2 as <- <-.
    destruct (overlays_step_spec visualizations names r1 s1) as (evs & _ & _ & Hr).
    rewrite H3 in Hr. cbn [fst] in Hr. destruct Hr as (_ & _ & Hd3 & _).
    by rewrite Hd3, Hd1.
  - intros Hd.
    apply getViewableImages_inv in Hrun as (r1 & s1 & r2 & s2 & H1 & H2 & H3).
    pose proof (depth_map_step_spec depthMapImage r1 s1) as Hs.
    rewrite Hd in Hs. rewrite Hs in H2.
    destruct (toDataURL depthMapImage "image/png" (world s1)) as [[url|e] w] eqn:Hurl;
      [|discriminate].
    injection H2 as <- <-. exists url, r1, s1, w.
    split; [exact H1|]. split; [exact Hurl|].
    destruct (overlays_step_spec visualizations names
                (with_displacementMap (Str url) r1)
                (mkState w (config s1)
                   (log s1 ++ [EvCall (C_toDataURL depthMapImage "image/png")])))
      as (evs & _ & _ & Hr).
    rewrite H3 in Hr. cbn [fst] in Hr. destruct Hr as (_ & _ & Hd3 & _).
    by rewrite Hd3.
Qed.
End MaterializerClaims.

(** ** [facely] *)

Lemma reports_cons (ev : Event) (l : list Event) :
  reports (ev :: l)
  = match ev with
    | EvCall (C_progress r) => r :: reports l
    | _ => reports l
    end.
Proof. by destruct ev as [[]| | |]. Qed.


Section OrchestratorFacts.
Context {H : Host}.

Lemma getViewableImages_state imageFile imageUrl depthMapImage visualizations
    names s o s' :
  getViewableImages imageFile imageUrl depthMapImage visualizations names s
  = (o, s') ->
  exists w evs,
    s' = mkState w (config s) (log s ++ evs)
    /\ forallb materializer_event evs = true.
Proof.
  intros Hrun.
  destruct (getViewableImages_extends imageFile imageUrl depthMapImage
              visualizations names s) as (evs & [Hc Hl] & Hm).
  rewrite Hrun in Hc, Hl. cbn [snd] in Hc, Hl.
  exists (world s'), evs. split; [|exact Hm].
  destruct s'; simpl in *; congruence.
Qed.

(** Runs [facely] on a callback that is there: one goal for each place
    where the run can end, with the outcome of every host call before it
    among the hypotheses. *)
Ltac run_facely :=
  cbv beta iota zeta delta
    [run facely bind call_progress console_log emit set_scaleFactor
     get_config ret throw];
  cbn [world config log];
  repeat
    (match goal with
     | |- context [ext ?c ?f ?s] =>
         let E := fresh "E" in
         destruct (ext c f s) as [[?|?] ?] eqn:E;
         [ apply ext_Normal_inv in E as (? & ? & ->)
         | apply ext_Throw_inv in E as (? & ? & ->) ]
     | |- context [getViewableImages ?a ?b ?c ?d ?e ?s] =>
         let E := fresh "E" in
         destruct (getViewableImages a b c d e s) as [[?|?] ?] eqn:E;
         apply getViewableImages_state in E as (? & ? & -> & ?)
     end;
     cbn [world config log]).

Ltac quiet_in Hin :=
  match goal with
  | Hm : forallb materializer_event ?evs = true, Hin' : _ ∈ ?evs |- _ =>
      apply materializer_events_quiet in Hm as (_ & _ & Hm);
      apply Hm in Hin
  end.

(** A run that resolves has handed the callback the fourteen reports. *)
Lemma facely_resolved_reports imageFile progress w c face s' :
  run (facely imageFile progress) w c = (Normal face, s') ->
  reports (log s') = pipeline_reports.
Proof.
  destruct progress as [f|]; [|discriminate].
  run_facely.
  all: try discriminate.
  intros [= _ <-]. cbn [log].
  match goal with Hm : forallb materializer_event _ = true |- _ =>
    apply materializer_events_quiet in Hm as (Hr & _ & _) end.
  repeat (rewrite reports_cons; cbv beta iota).
  rewrite !reports_app, Hr. reflexivity.
Qed.

(** C3. When the call of the prediction adapter throws or rejects with
    [e], the run rejects with [e] itself; that failure is the last event of
    the run, the callback has received the first seven reports and no
    more, and no call of the mesh builder, of the depth adapter or of the
    materializer was made. *)
Theorem prediction_failure_aborts imageFile progress w c o s' url cfg e :
  run (facely imageFile progress) w c = (o, s') ->
  EvThrew (C_handlePredictions url cfg) e ∈ log s' ->
  o = Throw e
  /\ last (log s') = Some (EvThrew (C_handlePredictions url cfg) e)
  /\ reports (log s') = take 7 pipeline_reports
  /\ (forall c', EvCall c' ∈ log s' -> later_stage_call c' = false).
Proof.
  destruct progress as [f|].
  2: { intros [= <- <-] Hin. by apply elem_of_nil in Hin. }
  run_facely.
  all: intros [= <- <-] Hin; cbn [log app] in Hin.
  all: in_log Hin.
  all: try (quiet_in Hin; discriminate Hin).
  injection Hin as -> -> ->.
  split; [reflexivity|]. split; [reflexivity|]. split; [reflexivity|].
  intros c' Hc'. cbn [log app] in Hc'. in_log Hc'.
  all: injection Hc' as ->; reflexivity.
Qed.

(** A later write of [scaleFactor] replaces an earlier one: what a run
    leaves in the shared object does not depend on the runs before it. *)
Lemma with_scaleFactor_twice (v1 v2 : number) (c : Config) :
  with_scaleFactor v2 (with_scaleFactor v1 c) = with_scaleFactor v2 c.
Proof. reflexivity. Qed.



(** C8, on the code: called without a progress callback, [facely] rejects
    with a TypeError at its first statement.  No stage runs: the host is
    never called and the world and the configuration are as they were. *)
Theorem facely_without_callback imageFile w c :
  run (facely imageFile None) w c
  = (Throw (TypeError "progress is not a function"), mkState w c []).
Proof. reflexivity. Qed.
End OrchestratorFacts.

Section CallbackInvocations.
Context {H : Host}.
Variable seen : World -> list ProgressReport.

Lemma keeps_ret {A} (a : A) : keeps seen (ret a).
Proof. by intros s o s' [= _ <-]. Qed.

Lemma keeps_ext {A} (c : Call) (f : Ext World A) :
  quiet seen f -> keeps seen (ext c f).
Proof.
  intros Hq s o s'. unfold ext.
  destruct (f (world s)) as [[a|e] w] eqn:Hf; intros [= _ <-]; cbn [world];
    exact (Hq _ _ _ Hf).
Qed.

Lemma keeps_bind {A B} (m : M A) (k : A -> M B) :
  keeps seen m -> (forall a, keeps seen (k a)) -> keeps seen (bind m k).
Proof.
  intros Hm Hk s o s'. unfold bind.
  destruct (m s) as [[a|e] s1] eqn:Hms.
  - intros Hks. rewrite (Hk _ _ _ _ Hks). exact (Hm _ _ _ Hms).
  - intros [= _ <-]. exact (Hm _ _ _ Hms).
Qed.

Hypothesis Hhost : host_keeps seen.

Lemma fetchToDataURL_keeps resource : keeps seen (fetchToDataURL resource).
Proof.
  destruct Hhost as (_ & _ & _ & _ & _ & _ & _ & _ & Hfetch & Hblob & Hread & _).
  unfold fetchToDataURL.
  repeat (apply keeps_bind; [|intros ?]); apply keeps_ext; auto.
Qed.

Lemma overlays_step_keeps visualizations names r :
  keeps seen (overlays_step visualizations names r).
Proof.
  revert r. induction names as [|overlay rest IH]; intros r; simpl.
  - apply keeps_ret.
  - destruct (truthy (get_prop visualizations overlay)); [|apply IH].
    apply keeps_bind; [apply fetchToDataURL_keeps|]. intros d. apply IH.
Qed.

Lemma getViewableImages_keeps imageFile imageUrl depthMapImage visualizations
    names :
  keeps seen
    (getViewableImages imageFile imageUrl depthMapImage visualizations names).
Proof.
  pose proof Hhost as (_ & _ & _ & _ & _ & _ & _ & _ & _ & _ & _ & Hto & _).
  unfold getViewableImages, base_image_step, depth_map_step.
  apply keeps_bind.
  { destruct (truthy imageFile && truthy imageUrl); [|apply keeps_ret].
    apply keeps_bind; [apply fetchToDataURL_keeps|].
    intros d. apply keeps_ret. }
  intros r1. apply keeps_bind.
  { destruct (truthy depthMapImage); [|apply keeps_ret].
    apply keeps_bind; [apply keeps_ext, Hto|]. intros u. apply keeps_ret. }
  intros r2. apply overlays_step_keeps.
Qed.

Lemma getViewableImages_seen imageFile imageUrl depthMapImage visualizations
    names s o s' :
  getViewableImages imageFile imageUrl depthMapImage visualizations names s
  = (o, s') ->
  exists w evs,
    s' = mkState w (config s) (log s ++ evs)
    /\ seen w = seen (world s).
Proof.
  intros Hrun.
  pose proof (getViewableImages_keeps _ _ _ _ _ _ _ _ Hrun) as Hseen.
  destruct (getViewableImages_extends imageFile imageUrl depthMapImage
              visualizations names s) as (evs & [Hc Hl] & _).
  rewrite Hrun in Hc, Hl. cbn [snd] in Hc, Hl.
  exists (world s'), evs. split; [|exact Hseen].
  destruct s'; simpl in *; congruence.
Qed.

(** C4. A run that resolves has invoked the progress callback exactly 14
    times: once with the "started" and once with the "complete" report of
    each of the 6 enumerated stages, in order, then with the 2 reports of
    the review phase.  Whatever the callback notes at each invocation, it
    has noted these fourteen reports, in this order, and nothing else, when
    the run is over. *)
Theorem progress_callback_invoked_14_times (f : Callback) imageFile w c face s' :
  records seen f ->
  run (facely imageFile (Some f)) w c = (Normal face, s') ->
  exists delivered : list ProgressReport,
    seen (world s') = seen w ++ delivered
    /\ reports (log s') = delivered
    /\ length delivered = 14%nat
    /\ delivered = flat_map stage_reports enumerated_stages ++ review_reports.
Proof.
  intros Hrec Hrun. exists pipeline_reports.
  split; [|split; [exact (facely_resolved_reports _ _ _ _ _ _ Hrun)|by split]].
  destruct Hhost as (Hk1 & Hk2 & Hk3 & Hk4 & Hk5 & Hhp & Hk7 & Hk8 & _ & _ & _
                     & _ & Hk13 & Hk14 & Hk15).
  unfold quiet in *. unfold records in Hrec.
  revert Hrun.
  cbv beta iota zeta delta
    [run facely bind call_progress console_log emit set_scaleFactor
     get_config ret throw];
  cbn [world config log];
  repeat
    (match goal with
     | |- context [ext ?c ?g ?s] =>
         let E := fresh "E" in
         destruct (ext c g s) as [[?|?] ?] eqn:E;
         [ apply ext_Normal_inv in E as (? & E & ->)
         | apply ext_Throw_inv in E as (? & E & ->) ]
     | |- context [getViewableImages ?a ?b ?c ?d ?e ?s] =>
         let E := fresh "E" in
         destruct (getViewableImages a b c d e s) as [[?|?] ?] eqn:E;
         apply getViewableImages_seen in E as (? & ? & -> & E)
     end;
     cbn [world config log] in *).
  all: try discriminate.
  intros [= _ <-]. cbn [world].
  repeat match goal with u : unit |- _ => destruct u end.
  repeat
    match goal with
    | Ei : import_handlePredictions _ = (Normal ?hp, _),
      E : ?hp _ _ _ = (_, ?w') |- context [seen ?w'] =>
        apply (Hhp _ _ _ Ei) in E; rewrite E; clear E
    | E : _ = (_, ?w') |- context [seen ?w'] =>
        first [ apply Hrec in E | apply Hk1 in E | apply Hk2 in E
              | apply Hk3 in E | apply Hk4 in E | apply Hk5 in E
              | apply Hk7 in E | apply Hk8 in E | apply Hk13 in E
              | apply Hk14 in E | apply Hk15 in E ];
        rewrite E; clear E
    | E : seen ?w' = _ |- context [seen ?w'] => rewrite E; clear E
    end.
  rewrite <- !app_assoc. reflexivity.
Qed.
End CallbackInvocations.

Section OrchestratorClaims.
Context {H : Host}.

(** C2. In a run that resolves the reports come in the order of their
    stages; the last one is the "complete" report of the final stage and
    carries 100 percent, and it is the only one that does: every other
    report carries at most 99. *)
Theorem reports_in_stage_order_last_is_100 imageFile progress w c face s' :
  run (facely imageFile progress) w c = (Normal face, s') ->
  let rs := reports (log s') in
  (exists idx : list Z,
      stage <$> rs = (fun i => stage_label i stages) <$> idx
      /\ StronglySorted Z.le idx)
  /\ last rs = Some (reportProgress stages stages "process complete!" true)
  /\ forall (i : nat) (r : ProgressReport),
      rs !! i = Some r ->
      (percent r = 100%float <-> S i = length rs)
      /\ (S i <> length rs -> (percent r <=? 99)%float = true).
Proof.
  intros Hrun. cbv zeta. rewrite (facely_resolved_reports _ _ _ _ _ _ Hrun).
  split; [|split].
  - exists [0; 0; 1; 1; 2; 2; 3; 3; 4; 4; 5; 5; 6; 6]. split; [reflexivity|].
    repeat (constructor; [|repeat (constructor; [discriminate|]); constructor]).
    constructor.
  - reflexivity.
  - intros i r Hi.
    do 13 (destruct i as [|i];
           [ injection Hi as <-; split;
             [ split; [intros Heq|intros [=]];
               apply (f_equal (fun x => (x =? 100)%float)) in Heq;
               vm_compute in Heq; discriminate Heq
             | intros _; vm_compute; reflexivity ]
           | ]).
    destruct i as [|i]; [|discriminate Hi].
    injection Hi as <-. split; [split; reflexivity|].
    intros Hne. by destruct Hne.
Qed.
End OrchestratorClaims.

(** ** The properties at work on the demonstration host *)



Lemma baseImage_needs_file_and_url_witness :
  (truthy (Obj 1) = false \/ truthy Undefined = false)
  /\ @base_image_step goodHost (Obj 1) Undefined (mkImages Null Null ∅)
       (@mkState goodHost 0%nat config0 [])
     = (Normal (mkImages Null Null ∅), @mkState goodHost 0%nat config0 []).
Proof.
  split; [right; reflexivity|].
  apply (proj1 (@baseImage_needs_file_and_url goodHost (Obj 1) Undefined (Obj 7)
                  demo_bundle overlayTypes (@mkState goodHost 0%nat config0 []))).
  right. reflexivity.
Defined.

Lemma displacementMap_from_surface_witness :
  exists r s',
    @getViewableImages goodHost (Obj 1) (Str "blob:portrait") (Obj 7)
      demo_bundle overlayTypes (@mkState goodHost 0%nat config0 [])
    = (Normal r, s')
    /\ (truthy (Obj 7) = true ->
        exists url r1 s1 w,
          @base_image_step goodHost (Obj 1) (Str "blob:portrait")
            (mkImages Null Null ∅) (@mkState goodHost 0%nat config0 [])
          = (Normal r1, s1)
          /\ @toDataURL goodHost (Obj 7) "image/png" (world s1) = (Normal url, w)
          /\ displacementMap r = Str url)
    /\ fetched (log s')
       = [Str "blob:portrait"; Str "blob:combined"; Str "blob:keypoints"].
Proof.
  eexists _, _. split; [vm_compute; reflexivity|].
  edestruct (@displacementMap_from_surface goodHost (Obj 1) (Str "blob:portrait")
               (Obj 7) demo_bundle overlayTypes (@mkState goodHost 0%nat config0 []))
    as (_ & Hmap & Hfetched); [vm_compute; reflexivity|].
  split; [exact Hmap|]. rewrite Hfetched. vm_compute. reflexivity.
Defined.

Lemma prediction_failure_aborts_witness :
  exists o s',
    @run badHost _ (facely (Obj 1) (demo_callback badHost (tick (Normal tt))))
      0%nat config0
    = (o, s')
    /\ EvThrew (C_handlePredictions "blob:portrait"
                 (with_scaleFactor (targetSceneWidth / 512)%float config0))
         demo_failure ∈ log s'
    /\ o = Throw demo_failure
    /\ reports (log s') = take 7 pipeline_reports.
Proof.
  eexists _, _. split; [vm_compute; reflexivity|].
  match goal with |- ?A /\ _ => assert A as Hin end.
  { vm_compute.
    repeat first [apply list_elem_of_here | apply list_elem_of_further]. }
  split; [exact Hin|].
  destruct (@prediction_failure_aborts badHost (Obj 1)
              (demo_callback badHost (tick (Normal tt))) 0%nat config0
              _ _ _ _ _ ltac:(vm_compute; reflexivity) Hin)
    as (Ho & _ & Hreports & _).
  split; [exact Ho|exact Hreports].
Defined.



Lemma noteHost_keeps : @host_keeps noteHost (fun w => w).
Proof.
  repeat split; unfold quiet; simpl; unfold still; intros; by simplify_eq.
Qed.

Lemma progress_callback_invoked_14_times_witness :
  @records noteHost (fun w => w) note
  /\ exists face s',
      @run noteHost _ (facely (Obj 1) (Some note)) [] config0 = (Normal face, s')
      /\ world s' = pipeline_reports.
Proof.
  assert (@records noteHost (fun w => w) note) as Hrec
    by (by intros r w w' [= <-]).
  split; [exact Hrec|].
  eexists _, _. split; [vm_compute; reflexivity|].
  destruct (@progress_callback_invoked_14_times noteHost (fun w => w)
              noteHost_keeps note (Obj 1) [] config0 _ _ Hrec
              ltac:(vm_compute; reflexivity))
    as (delivered & Hseen & _ & _ & ->).
  exact Hseen.
Defined.

Lemma reports_in_stage_order_last_is_100_witness :
  exists face s',
    @run goodHost _ (facely (Obj 1) (demo_callback goodHost (tick (Normal tt))))
      0%nat config0
    = (Normal face, s')
    /\ last (reports (log s'))
       = Some (reportProgress stages stages "process complete!" true).
Proof.
  eexists _, _. split; [vm_compute; reflexivity|].
  match goal with
  | |- last (reports (log ?s)) = _ =>
      exact (proj1 (proj2 (@reports_in_stage_order_last_is_100 goodHost (Obj 1)
                             (demo_callback goodHost (tick (Normal tt))) 0%nat
                             config0 _ s ltac:(vm_compute; reflexivity))))
  end.
Defined.

(** * Further properties *)

Lemma failures_app (l1 l2 : list Event) :
  failures (l1 ++ l2) = failures l1 ++ failures l2.
Proof. apply omap_app. Qed.

Lemma failures_cons (ev : Event) (l : list Event) :
  failures (ev :: l)
  = match ev with
    | EvThrew c e => (c, e) :: failures l
    | _ => failures l
    end.
Proof. by destruct ev. Qed.

Lemma calls_app (l1 l2 : list Event) : calls (l1 ++ l2) = calls l1 ++ calls l2.
Proof. apply omap_app. Qed.

Lemma pipeline_calls_app (l1 l2 : list Event) :
  pipeline_calls (l1 ++ l2) = pipeline_calls l1 ++ pipeline_calls l2.
Proof. unfold pipeline_calls. by rewrite calls_app, List.filter_app. Qed.

Lemma pipeline_calls_cons (ev : Event) (l : list Event) :
  pipeline_calls (ev :: l)
  = match ev with
    | EvCall c => if materializer_call c then pipeline_calls l
                  else c :: pipeline_calls l
    | _ => pipeline_calls l
    end.
Proof.
  destruct ev as [c| | |]; try reflexivity.
  unfold pipeline_calls. simpl. by destruct (materializer_call c).
Qed.

Lemma pipeline_calls_materializer (evs : list Event) :
  forallb materializer_event evs = true -> pipeline_calls evs = [].
Proof.
  induction evs as [|ev evs IH]; [reflexivity|]. simpl.
  intros [Hev Hevs]%andb_prop. rewrite pipeline_calls_cons.
  destruct ev as [c| | |]; simpl in Hev; try rewrite Hev; auto.
Qed.

Lemma last_cons_Some {A} (x y : A) (l : list A) :
  last l = Some y -> last (x :: l) = Some y.
Proof. intros Hl. rewrite last_cons, Hl. reflexivity. Qed.

Section MaterializerTraces.
Context {H : Host}.

Lemma materializes_ret {A} (a : A) : materializes (ret a).
Proof.
  intros s. exists []. split; [apply extends_refl|]. by split.
Qed.

Lemma materializes_ext {A} (c : Call) (f : Ext World A) :
  materializer_call c = true -> materializes (ext c f).
Proof.
  intros Hc s. unfold ext.
  destruct (f (world s)) as [[a|e] w]; cbn [fst snd].
  - exists [EvCall c]. split; [by split|]. split; [simpl; by rewrite Hc|done].
  - exists [EvCall c; EvThrew c e]. split; [by split|].
    split; [simpl; by rewrite Hc|].
    exists c. by split.
Qed.

Lemma materializes_bind {A B} (m : M A) (k : A -> M B) :
  materializes m -> (forall a, materializes (k a)) -> materializes (bind m k).
Proof.
  intros Hm Hk s. unfold bind. destruct (Hm s) as (e1 & Hx1 & Hq1 & Hf1).
  destruct (m s) as [[a|e] s1]; cbn [fst snd] in *.
  - destruct (Hk a s1) as (e2 & Hx2 & Hq2 & Hf2).
    exists (e1 ++ e2). split; [eapply extends_trans; eassumption|].
    split; [by rewrite forallb_app, Hq1, Hq2|].
    destruct (k a s1).1 as [b|e]; cbn [fails_fast] in *.
    + by rewrite failures_app, Hf1, Hf2.
    + destruct Hf2 as (c & Hf2 & Hl2). exists c.
      rewrite failures_app, Hf1, Hf2. split; [reflexivity|].
      rewrite last_app, Hl2. reflexivity.
  - exists e1. auto.
Qed.

Lemma fetchToDataURL_materializes resource : materializes (fetchToDataURL resource).
Proof.
  unfold fetchToDataURL.
  repeat (apply materializes_bind; [|intros ?]);
    by apply materializes_ext.
Qed.

Lemma overlays_step_materializes visualizations names r :
  materializes (overlays_step visualizations names r).
Proof.
  revert r. induction names as [|overlay rest IH]; intros r; simpl.
  - apply materializes_ret.
  - destruct (truthy (get_prop visualizations overlay)); [|apply IH].
    apply materializes_bind; [apply fetchToDataURL_materializes|].
    intros d. apply IH.
Qed.

Lemma getViewableImages_materializes imageFile imageUrl depthMapImage
    visualizations names :
  materializes
    (getViewableImages imageFile imageUrl depthMapImage visualizations names).
Proof.
  unfold getViewableImages, base_image_step, depth_map_step.
  apply materializes_bind.
  { destruct (truthy imageFile && truthy imageUrl); [|apply materializes_ret].
    apply materializes_bind; [apply fetchToDataURL_materializes|].
    intros d. apply materializes_ret. }
  intros r1. apply materializes_bind.
  { destruct (truthy depthMapImage); [|apply materializes_ret].
    apply materializes_bind; [by apply materializes_ext|].
    intros u. apply materializes_ret. }
  intros r2. apply overlays_step_materializes.
Qed.

Lemma bind_assoc {A B C} (m : M A) (k : A -> M B) (h : B -> M C) s :
  bind m (fun a => bind (k a) h) s = bind (bind m k) h s.
Proof. unfold bind. by destruct (m s) as [[a|e] s1]. Qed.

Lemma base_and_depth_materializes imageFile imageUrl depthMapImage r :
  materializes
    (bind (base_image_step imageFile imageUrl r)
       (fun r1 => depth_map_step depthMapImage r1)).
Proof.
  unfold base_image_step, depth_map_step. apply materializes_bind.
  { destruct (truthy imageFile && truthy imageUrl); [|apply materializes_ret].
    apply materializes_bind; [apply fetchToDataURL_materializes|].
    intros d. apply materializes_ret. }
  intros r1. destruct (truthy depthMapImage); [|apply materializes_ret].
  apply materializes_bind; [by apply materializes_ext|].
  intros u. apply materializes_ret.
Qed.

Lemma getViewableImages_unchecked_eq imageFile imageUrl depthMapImage
    visualizations overlayTypes s :
  getViewableImages_unchecked imageFile imageUrl depthMapImage visualizations
    overlayTypes s
  = match bind (base_image_step imageFile imageUrl (mkImages Null Null ∅))
            (fun r1 => depth_map_step depthMapImage r1) s with
    | (Normal r, s1) => overlays_loop visualizations overlayTypes r s1
    | (Throw e, s1) => (Throw e, s1)
    end.
Proof.
  unfold getViewableImages_unchecked. cbv zeta. rewrite bind_assoc.
  reflexivity.
Qed.

Lemma getViewableImages_unchecked_typed imageFile imageUrl depthMapImage
    visualizations names :
  getViewableImages_unchecked imageFile imageUrl depthMapImage
    (Some visualizations) (Some names)
  = getViewableImages imageFile imageUrl depthMapImage visualizations names.
Proof. reflexivity. Qed.

(** X1. Whatever it is passed and whatever the host does,
    [getViewableImages] leaves the configuration as it was and calls nothing
    but [fetch], [blob], [readAsDataURL] and [toDataURL]: no progress report
    and no write to the configuration come from it.  It resolves only when
    no call has failed and the loop could run.  It rejects either with the
    value a failing call threw, that failure being the last thing it did, or,
    no call having failed, with a TypeError of the language, and this only
    when the names cannot be iterated or a name is asked of a bundle that is
    not there. *)
Theorem getViewableImages_footprint imageFile imageUrl depthMapImage
    (visualizations : option (gmap string JsVal))
    (overlayTypes : option (list string)) s :
  let out :=
    getViewableImages_unchecked imageFile imageUrl depthMapImage
      visualizations overlayTypes s in
  config out.2 = config s
  /\ exists evs,
      log out.2 = log s ++ evs
      /\ (forall ev, ev ∈ evs -> materializer_event ev = true)
      /\ reports evs = [] /\ config_writes evs = []
      /\ match out.1 with
         | Normal _ =>
             failures evs = [] /\ loop_runs visualizations overlayTypes
         | Throw e =>
             (exists c, materializer_call c = true
                        /\ failures evs = [(c, e)]
                        /\ last evs = Some (EvThrew c e))
             \/ (failures evs = []
                 /\ ~ loop_runs visualizations overlayTypes
                 /\ exists msg, e = TypeError msg)
         end.
Proof.
  cbv zeta.
  assert (forall (o : Completion ViewableImages) s' evs,
             extends s s' evs -> forallb materializer_event evs = true ->
             match o with
             | Normal _ =>
                 failures evs = [] /\ loop_runs visualizations overlayTypes
             | Throw e =>
                 (exists c, failures evs = [(c, e)]
                            /\ last evs = Some (EvThrew c e))
                 \/ (failures evs = []
                     /\ ~ loop_runs visualizations overlayTypes
                     /\ exists msg, e = TypeError msg)
             end ->
             config (o, s').2 = config s
             /\ exists evs,
                 log (o, s').2 = log s ++ evs
                 /\ (forall ev, ev ∈ evs -> materializer_event ev = true)
                 /\ reports evs = [] /\ config_writes evs = []
                 /\ match (o, s').1 with
                    | Normal _ =>
                        failures evs = []
                        /\ loop_runs visualizations overlayTypes
                    | Throw e =>
                        (exists c, materializer_call c = true
                                   /\ failures evs = [(c, e)]
                                   /\ last evs = Some (EvThrew c e))
                        \/ (failures evs = []
                            /\ ~ loop_runs visualizations overlayTypes
                            /\ exists msg, e = TypeError msg)
                    end) as Hpack.
  { intros o s' evs [Hc Hl] Hq Ho. cbn [fst snd].
    split; [exact Hc|]. exists evs. split; [exact Hl|].
    destruct (materializer_events_quiet evs Hq) as (Hr & Hw & Hin).
    do 3 (split; [assumption|]).
    destruct o as [r|e]; [exact Ho|].
    destruct Ho as [(c & Hf & Hlast)|Ho]; [left|by right].
    exists c. split; [|by split].
    apply last_Some_elem_of in Hlast. apply Hin in Hlast. exact Hlast. }
  destruct overlayTypes as [names|], visualizations as [bundle|].
  - rewrite getViewableImages_unchecked_typed.
    destruct (getViewableImages_materializes imageFile imageUrl depthMapImage
                bundle names s) as (evs & Hx & Hq & Hf).
    destruct (getViewableImages imageFile imageUrl depthMapImage bundle names s)
      as [o s'].
    apply (Hpack o s' evs Hx Hq). cbn [fst snd] in Hf.
    destruct o as [r|e]; cbn [fails_fast] in Hf.
    + split; [exact Hf|]. destruct names; simpl; eauto.
    + by left.
  - rewrite getViewableImages_unchecked_eq.
    destruct (base_and_depth_materializes imageFile imageUrl depthMapImage
                (mkImages Null Null ∅) s) as (evs & Hx & Hq & Hf).
    destruct (bind (base_image_step imageFile imageUrl (mkImages Null Null ∅))
                (fun r1 => depth_map_step depthMapImage r1) s)
      as [[r|e] s'];
      cbn [fst snd fails_fast] in Hx, Hf.
    + destruct names as [|overlay rest]; unfold overlays_loop, ret, throw.
      * apply (Hpack (Normal r) s' evs Hx Hq). split; [exact Hf|exact I].
      * apply (Hpack (Throw _) s' evs Hx Hq). right. split; [exact Hf|].
        split; [|by eexists]. by intros [? [=]].
    + apply (Hpack (Throw e) s' evs Hx Hq). by left.
  - rewrite getViewableImages_unchecked_eq.
    destruct (base_and_depth_materializes imageFile imageUrl depthMapImage
                (mkImages Null Null ∅) s) as (evs & Hx & Hq & Hf).
    destruct (bind (base_image_step imageFile imageUrl (mkImages Null Null ∅))
                (fun r1 => depth_map_step depthMapImage r1) s)
      as [[r|e] s'];
      cbn [fst snd fails_fast] in Hx, Hf.
    + unfold overlays_loop, throw. apply (Hpack (Throw _) s' evs Hx Hq). right.
      split; [exact Hf|]. split; [|by eexists]. by intros [].
    + apply (Hpack (Throw e) s' evs Hx Hq). by left.
  - rewrite getViewableImages_unchecked_eq.
    destruct (base_and_depth_materializes imageFile imageUrl depthMapImage
                (mkImages Null Null ∅) s) as (evs & Hx & Hq & Hf).
    destruct (bind (base_image_step imageFile imageUrl (mkImages Null Null ∅))
                (fun r1 => depth_map_step depthMapImage r1) s)
      as [[r|e] s'];
      cbn [fst snd fails_fast] in Hx, Hf.
    + unfold overlays_loop, throw. apply (Hpack (Throw _) s' evs Hx Hq). right.
      split; [exact Hf|]. split; [|by eexists]. by intros [].
    + apply (Hpack (Throw e) s' evs Hx Hq). by left.
Qed.
End MaterializerTraces.

Section MaterializerValues.
Context {H : Host}.


Lemma getViewableImages_overlay_keys imageFile imageUrl depthMapImage
    visualizations names s r s' :
  getViewableImages imageFile imageUrl depthMapImage visualizations names s
  = (Normal r, s') ->
  forall k : string,
    is_Some (overlays r !! k)
    <-> k ∈ names /\ present visualizations k = true /\ k <> "__proto__".
Proof.
  intros (r1 & s1 & r2 & s2 & H1 & H2 & H3)%getViewableImages_inv k.
  apply base_image_step_keeps in H1 as [_ Ho1].
  apply depth_map_step_keeps in H2 as [_ Ho2].
  destruct (overlays_step_spec visualizations names r2 s2) as (evs & _ & _ & Hr).
  rewrite H3 in Hr. cbn [fst] in Hr. destruct Hr as (_ & _ & _ & Hdom).
  rewrite Hdom, Ho2, Ho1. cbn [overlays]. rewrite lookup_empty. split.
  - intros [[v Hv]|Hk]; [discriminate|exact Hk].
  - intros Hk. by right.
Qed.

Lemma getViewableImages_displacementMap_null imageFile imageUrl depthMapImage
    visualizations names s r s' :
  getViewableImages imageFile imageUrl depthMapImage visualizations names s
  = (Normal r, s') ->
  displacementMap r = Null <-> truthy depthMapImage = false.
Proof.
  intros (r1 & s1 & r2 & s2 & Hb & Hd & Ho)%getViewableImages_inv.
  apply base_image_step_keeps in Hb as [Hd1 _]. cbn [displacementMap] in Hd1.
  pose proof (depth_map_step_spec depthMapImage r1 s1) as Hs.
  destruct (overlays_step_spec visualizations names r2 s2) as (evs & _ & _ & Hr).
  rewrite Ho in Hr. cbn [fst] in Hr. destruct Hr as (_ & _ & Hd3 & _).
  rewrite Hd3. destruct (truthy depthMapImage); rewrite Hs in Hd.
  - destruct (toDataURL depthMapImage "image/png" (world s1)) as [[url|e] w'];
      [|discriminate].
    injection Hd as <- _. cbn [with_displacementMap displacementMap].
    split; discriminate.
  - injection Hd as <- _. by rewrite Hd1.
Qed.

End MaterializerValues.


Section OrchestratorTraces.
Context {H : Host}.

Lemma getViewableImages_outcome imageFile imageUrl depthMapImage visualizations
    names s o s' :
  getViewableImages imageFile imageUrl depthMapImage visualizations names s
  = (o, s') ->
  exists w evs,
    s' = mkState w (config s) (log s ++ evs)
    /\ forallb materializer_event evs = true
    /\ fails_fast o evs.
Proof.
  intros Hrun.
  destruct (getViewableImages_materializes imageFile imageUrl depthMapImage
              visualizations names s) as (evs & [Hc Hl] & Hq & Hf).
  rewrite Hrun in Hc, Hl, Hf. cbn [fst snd] in Hc, Hl, Hf.
  exists (world s'), evs. split; [|by split].
  destruct s'; simpl in *; congruence.
Qed.

(** Runs [facely] as [run_facely] does, and keeps for the materializer both
    what it returned and how its outcome shows in its events. *)
Ltac trace_facely :=
  cbv beta iota zeta delta
    [run facely bind call_progress console_log emit set_scaleFactor
     get_config ret throw];
  cbn [world config log];
  repeat
    (match goal with
     | |- context [ext ?c ?f ?s] =>
         let E := fresh "E" in
         destruct (ext c f s) as [[?|?] ?] eqn:E;
         [ apply ext_Normal_inv in E as (? & ? & ->)
         | apply ext_Throw_inv in E as (? & ? & ->) ]
     | |- context [getViewableImages ?a ?b ?c ?d ?e ?s] =>
         let E := fresh "E" in
         let G := fresh "Hgvi" in
         destruct (getViewableImages a b c d e s) as [[?|?] ?] eqn:E;
         pose proof E as G;
         apply getViewableImages_outcome in E as (? & ? & -> & ? & ?)
     end;
     cbn [world config log]).

(** X3. [facely] fails fast.  A run that resolves has seen no failure.  A run
    that rejects either had no callback to call, or has seen exactly one
    failure, of a host call or of the callback: the run ends with it and
    rejects with the very value it threw. *)
Theorem facely_fails_fast imageFile progress w c :
  let out := run (facely imageFile progress) w c in
  match out.1 with
  | Normal _ => failures (log out.2) = []
  | Throw e =>
      (progress = None /\ e = TypeError "progress is not a function"
       /\ log out.2 = [])
      \/ (exists c', failures (log out.2) = [(c', e)]
                     /\ last (log out.2) = Some (EvThrew c' e))
  end.
Proof.
  cbv zeta. destruct progress as [f|]; [|by left].
  trace_facely.
  all: cbn [fst snd log app fails_fast] in *.
  all: try right.
  all: repeat match goal with
         | Hf : exists c, failures _ = _ /\ _ |- _ => destruct Hf as (? & Hf & ?)
         end.
  all: try eexists; try split.
  all: repeat (rewrite failures_cons; cbv beta iota).
  all: rewrite ?failures_app;
       repeat match goal with Hf : failures _ = _ |- _ => rewrite Hf end;
       try reflexivity.
  all: repeat apply last_cons_Some; rewrite ?last_app; try eassumption;
       try reflexivity.
Qed.


(** X8. Whether it resolves or rejects, a run calls its collaborators in that
    one order and never one of them twice: the calls it has made outside the
    materializer are an initial part of the calls of a resolved run. *)
Theorem facely_calls_in_order imageFile progress w c :
  let out := run (facely imageFile progress) w c in
  exists url : string,
    pipeline_calls (log out.2)
      `prefix_of` resolved_calls imageFile url (config out.2).
Proof.
  cbv zeta. destruct progress as [f|].
  2: { exists "". eexists. reflexivity. }
  trace_facely.
  all: cbn [fst snd log config app].
  all: eexists; eexists.
  all: repeat (rewrite pipeline_calls_cons; cbn [materializer_call]).
  all: rewrite ?pipeline_calls_app;
       repeat match goal with Hq : forallb materializer_event _ = true |- _ =>
                rewrite (pipeline_calls_materializer _ Hq); clear Hq end.
  all: repeat (rewrite pipeline_calls_cons; cbn [materializer_call]).
  all: unfold resolved_calls, pipeline_calls, calls; cbn [app omap List.filter];
       reflexivity.
  Unshelve. all: exact "".
Qed.

(** X5. The last report goes out before the results are in: whenever the
    materializer or a mesh getter has been called, the callback has already
    received all fourteen reports, the one of 100 percent included.  A run
    can therefore report 100 percent and reject afterwards. *)
Theorem reports_complete_before_materializing imageFile progress w c c' :
  let out := run (facely imageFile progress) w c in
  EvCall c' ∈ log out.2 ->
  after_last_report c' = true ->
  reports (log out.2) = pipeline_reports.
Proof.
  cbv zeta. destruct progress as [f|].
  2: { intros Hin. by apply elem_of_nil in Hin. }
  trace_facely.
  all: cbn [fst snd log app]; intros Hin Hafter.
  all: first
    [ solve
        [ repeat (rewrite reports_cons; cbv beta iota);
          rewrite ?reports_app;
          match goal with Hq : forallb materializer_event _ = true |- _ =>
            destruct (materializer_events_quiet _ Hq) as (-> & _ & _) end;
          reflexivity ]
    | exfalso; in_log Hin; injection Hin as ->; discriminate Hafter ].
Qed.

(** X6. The images of a resolved run: [image.overlays] is keyed by those of
    the four configured overlay names for which the bundle the prediction
    adapter returned holds an entry, so by four names at most, and
    [image.displacementMap] is null exactly when the depth adapter returned
    a falsy result. *)
Theorem facely_image_overlays imageFile progress w c face s' :
  run (facely imageFile progress) w c = (Normal face, s') ->
  exists (visualizations : gmap string JsVal) (depthEstimationResult : JsVal),
    EvConsoleLog (L_visualizations visualizations) ∈ log s'
    /\ EvConsoleLog (L_depthEstimationResult depthEstimationResult) ∈ log s'
    /\ (forall k : string,
          is_Some (overlays (image face) !! k) <->
          k ∈ overlayTypes
          /\ exists v, visualizations !! k = Some v /\ truthy v = true)
    /\ (size (overlays (image face)) <= 4)%nat
    /\ (displacementMap (image face) = Null
        <-> truthy depthEstimationResult = false).
Proof.
  destruct progress as [f|]; [|discriminate].
  trace_facely.
  all: try discriminate.
  intros [= <- <-]. cbn [log image app].
  match goal with
  | Hgvi : getViewableImages _ _ ?d ?v _ _ = _ |- _ => exists v, d
  end.
  split; [repeat first [apply list_elem_of_here | apply list_elem_of_further]|].
  split; [repeat first [apply list_elem_of_here | apply list_elem_of_further]|].
  pose proof (getViewableImages_overlay_keys _ _ _ _ _ _ _ _ Hgvi) as Hkeys.
  split; [|split].
  - intros k. rewrite Hkeys. split.
    + intros (Hk & Hp & _). split; [exact Hk|].
      by apply present_iff; [apply overlayTypes_own|].
    + intros (Hk & Hp). split; [exact Hk|].
      pose proof (overlayTypes_own k Hk) as Hown.
      split; [by apply present_iff|by apply inherited_proto].
  - rewrite <- size_dom.
    etrans; [apply (subseteq_size _ (list_to_set overlayTypes))|].
    + intros k [Hk _]%elem_of_dom%Hkeys. by apply elem_of_list_to_set.
    + by vm_compute.
  - exact (getViewableImages_displacementMap_null _ _ _ _ _ _ _ _ Hgvi).
Qed.

End OrchestratorTraces.


Lemma reports_complete_before_materializing_witness :
  (@run lateHost _ (facely (Obj 1) (demo_callback lateHost (tick (Normal tt))))
     0%nat config0).1
  = Throw (TypeError "Failed to fetch")
  /\ reports
       (log (@run lateHost _
               (facely (Obj 1) (demo_callback lateHost (tick (Normal tt))))
               0%nat config0).2)
     = pipeline_reports.
Proof.
  split; [vm_compute; reflexivity|].
  apply (@reports_complete_before_materializing lateHost (Obj 1)
           (demo_callback lateHost (tick (Normal tt))) 0%nat config0
           (C_fetch (Str "blob:portrait"))); [|reflexivity].
  vm_compute. repeat first [apply list_elem_of_here | apply list_elem_of_further].
Defined.

Lemma facely_image_overlays_witness :
  match @run goodHost _
          (facely (Obj 1) (demo_callback goodHost (tick (Normal tt))))
          0%nat config0 with
  | (Normal face, s') => (size (overlays (image face)) <= 4)%nat
  | (Throw _, _) => False
  end.
Proof.
  destruct (@run goodHost _
              (facely (Obj 1) (demo_callback goodHost (tick (Normal tt))))
              0%nat config0) as [[face|e] s'] eqn:Hrun.
  - destruct (@facely_image_overlays goodHost _ _ _ _ _ _ Hrun)
      as (v & d & _ & _ & _ & Hsize & _).
    exact Hsize.
  - apply (f_equal (fun out => match out.1 with
                                 | Normal _ => true
                                 | Throw _ => false
                                 end)) in Hrun.
    vm_compute in Hrun. discriminate Hrun.
Defined.

